(** * gowiki: a shallow embedding of [gowiki.go] and its properties

    The program is a small wiki served over HTTP: pages are text files
    [data/<Title>.txt], three handlers ([view], [edit], [save]) sit behind a
    path validator, and a root handler redirects to the front page.

    The development follows the layout of the source file:
    - strings and the path validator [validPath];
    - the file system seen through [ioutil.ReadFile] / [ioutil.WriteFile];
    - the Page Store ([Page.save], [loadPage]);
    - the response writer and the [net/http] responders the program calls;
    - the handlers, [makeHandler], and the routes registered by [main];
    - the properties. *)

From Stdlib Require Import ZArith NArith Ascii String List Bool Lia.
From stdpp Require Import base option list gmap strings.

Local Open Scope Z_scope.

(* ===================================================================== *)
(** ** Strings *)
(* ===================================================================== *)

(** Go strings are byte sequences; [string] (a list of 8-bit characters) is
    used for them and [list byte] for [[]byte]. *)

Abbreviation bytes := (list Byte.byte).

(** [[]byte(s)] and [string(b)]. *)
Definition bytes_of_string (s : string) : bytes := String.list_byte_of_string s.
Definition string_of_bytes (b : bytes) : string := String.string_of_list_byte b.

(** [strings.HasPrefix(s, pre)] together with the remainder: [Some rest]
    when [s = pre ++ rest]. *)
Fixpoint strip_prefix (pre s : string) : option string :=
  match pre with
  | EmptyString => Some s
  | String a pre' =>
      match s with
      | EmptyString => None
      | String b s' => if Ascii.eqb a b then strip_prefix pre' s' else None
      end
  end.

Definition HasPrefix (s pre : string) : bool :=
  match strip_prefix pre s with Some _ => true | None => false end.

(** The last byte of a string, [s[len(s)-1]]. *)
Fixpoint last_char (s : string) : option ascii :=
  match s with
  | EmptyString => None
  | String a EmptyString => Some a
  | String _ s' => last_char s'
  end.

Definition ends_with_slash (s : string) : bool :=
  match last_char s with
  | Some c => Ascii.eqb c "/"
  | None => false
  end.

Fixpoint string_forallb (f : ascii -> bool) (s : string) : bool :=
  match s with
  | EmptyString => true
  | String a s' => f a && string_forallb f s'
  end.

(* ===================================================================== *)
(** ** The path validator *)
(* ===================================================================== *)

(** A character range [lo-hi] of a regular-expression class. *)
Definition in_range (lo hi c : ascii) : bool :=
  (N_of_ascii lo <=? N_of_ascii c)%N && (N_of_ascii c <=? N_of_ascii hi)%N.

(** The class [[a-zA-Z0-9]]. *)
Definition alnum_class (c : ascii) : bool :=
  in_range "a" "z" c || in_range "A" "Z" c || in_range "0" "9" c.

(** A string matching [[a-zA-Z0-9]+]: at least one character, all of them in
    the class. *)
Definition alnum_plus (s : string) : bool :=
  match s with
  | EmptyString => false
  | String _ _ => string_forallb alnum_class s
  end.

(** The alternation [(edit|save|view)], in the order of the source. *)
Definition validPath_actions : list string := ["edit"; "save"; "view"].

(** One alternative of the first group followed by [/([a-zA-Z0-9]+)$]:
    [Some (action, title)] when [s = action ++ "/" ++ title]. *)
Definition match_action (s action : string) : option (string * string) :=
  match strip_prefix action s with
  | Some rest =>
      match strip_prefix "/" rest with
      | Some title => if alnum_plus title then Some (action, title) else None
      | None => None
      end
  | None => None
  end.

Fixpoint first_action (s : string) (actions : list string) : option (string * string) :=
  match actions with
  | [] => None
  | a :: actions' =>
      match match_action s a with
      | Some m => Some m
      | None => first_action s actions'
      end
  end.

(** [validPath.FindStringSubmatch(path)] for
    [validPath = regexp.MustCompile("^/(edit|save|view)/([a-zA-Z0-9]+)$")]:
    [None] is Go's [nil]; on a match the result is the whole match followed
    by the two groups. Both anchors are absolute ([$] is the end of the text:
    the pattern has no [m] flag). *)
Definition validPath_FindStringSubmatch (path : string) : option (list string) :=
  match strip_prefix "/" path with
  | Some s =>
      match first_action s validPath_actions with
      | Some (action, title) => Some [path; action; title]
      | None => None
      end
  | None => None
  end.

(** *** The pattern as a regular expression

    The matcher above is written for this one pattern. The pattern itself,
    as a regular expression with the usual meaning, is kept next to it so
    that the two can be compared. *)
Inductive regexp :=
| RLit (s : string)
| RClass (f : ascii -> bool)
| RCat (r1 r2 : regexp)
| RAlt (r1 r2 : regexp)
| RPlus (r : regexp).

(** [re_match r s]: the whole of [s] is matched by [r]. *)
Inductive re_match : regexp -> string -> Prop :=
| MLit s : re_match (RLit s) s
| MClass (f : ascii -> bool) c : f c = true -> re_match (RClass f) (String c "")
| MCat r1 r2 s1 s2 :
    re_match r1 s1 -> re_match r2 s2 -> re_match (RCat r1 r2) (s1 +:+ s2)
| MAltL r1 r2 s : re_match r1 s -> re_match (RAlt r1 r2) s
| MAltR r1 r2 s : re_match r2 s -> re_match (RAlt r1 r2) s
| MPlusOne r s : re_match r s -> re_match (RPlus r) s
| MPlusMore r s1 s2 :
    re_match r s1 -> re_match (RPlus r) s2 -> re_match (RPlus r) (s1 +:+ s2).

(** [^/(edit|save|view)/([a-zA-Z0-9]+)$] and its two groups; the anchors
    make it a match of the whole path. *)
Definition validPath_group1 : regexp :=
  RAlt (RLit "edit") (RAlt (RLit "save") (RLit "view")).

Definition validPath_group2 : regexp := RPlus (RClass alnum_class).

Definition validPath : regexp :=
  RCat (RLit "/") (RCat validPath_group1 (RCat (RLit "/") validPath_group2)).

(* ===================================================================== *)
(** ** The file system behind [io/ioutil] *)
(* ===================================================================== *)

(** Permission bits are written in octal in the source: [octal u g o] is the
    mode [0ugo]. *)
Definition octal (u g o : Z) : Z := u * 64 + g * 8 + o.

(** A regular file: its content and its permission bits. *)
Record File := mkFile { contents : bytes; perm : Z }.

(** The calls the program makes into the file system, kept as a log so that
    properties can speak about which names were ever opened. *)
Inductive FsOp :=
| OpReadFile (name : string)
| OpWriteFile (name : string) (data : bytes) (mode : Z).

Definition op_name (o : FsOp) : string :=
  match o with
  | OpReadFile n => n
  | OpWriteFile n _ _ => n
  end.

(** The state of the file system:
    - [files]: the regular files, by name as the program spells it;
    - [fault]: the names on which [open] fails for a reason outside the
      program (missing [data] directory, access denied, a directory in the
      way, ...), with the system's error text;
    - [oplog]: the calls made so far, most recent first. *)
Record FileSys := mkFileSys {
  files : gmap string File;
  fault : string -> option string;
  oplog : list FsOp
}.

(** [*os.PathError] and its [Error()] method. *)
Record PathError := mkPathError { Op : string; Path : string; Err : string }.

Definition PathError_Error (e : PathError) : string :=
  Op e +:+ " " +:+ Path e +:+ ": " +:+ Err e.

Definition ENOENT : string := "no such file or directory".

Inductive result (A : Type) :=
| Ok (a : A)
| Failed (e : PathError).
Arguments Ok {A} a.
Arguments Failed {A} e.

Definition is_ok {A} (r : result A) : bool :=
  match r with Ok _ => true | Failed _ => false end.

(** Computations that read and change the file system. *)
Definition IO (A : Type) : Type := FileSys -> A * FileSys.

Definition ret {A} (a : A) : IO A := fun fs => (a, fs).

Definition bind {A B} (m : IO A) (k : A -> IO B) : IO B :=
  fun fs => let (a, fs') := m fs in k a fs'.

Declare Scope io_scope.
Delimit Scope io_scope with io.
Notation "'let*' x ':=' m 'in' k" := (bind m (fun x => k))
  (at level 10, x name, m at level 100, k at level 200) : io_scope.

Definition log_op (o : FsOp) (fs : FileSys) : FileSys :=
  mkFileSys (files fs) (fault fs) (o :: oplog fs).

(** [ioutil.ReadFile(filename)]: the whole content of the file, or the error
    of [open]. *)
Definition ioutil_ReadFile (filename : string) : IO (result bytes) :=
  fun fs =>
    let fs := log_op (OpReadFile filename) fs in
    match fault fs filename with
    | Some e => (Failed (mkPathError "open" filename e), fs)
    | None =>
        match files fs !! filename with
        | Some f => (Ok (contents f), fs)
        | None => (Failed (mkPathError "open" filename ENOENT), fs)
        end
    end.

(** [ioutil.WriteFile(filename, data, perm)]: "If the file does not exist,
    WriteFile creates it with permissions perm; otherwise WriteFile truncates
    it before writing, without changing permissions." The mode kept in the
    model is the one requested, before the process umask. [None] is Go's
    [nil] error. *)
Definition ioutil_WriteFile (filename : string) (data : bytes) (mode : Z)
  : IO (option PathError) :=
  fun fs =>
    let fs := log_op (OpWriteFile filename data mode) fs in
    match fault fs filename with
    | Some e => (Some (mkPathError "open" filename e), fs)
    | None =>
        let m := match files fs !! filename with
                 | Some f => perm f
                 | None => mode
                 end in
        (None, mkFileSys (<[filename := mkFile data m]> (files fs)) (fault fs) (oplog fs))
    end.

(* ===================================================================== *)
(** ** The Page Store *)
(* ===================================================================== *)

Record Page := mkPage { Title : string; Body : bytes }.

Definition page_filename (title : string) : string := "data/" +:+ title +:+ ".txt".

(** [func (p *Page) save() error] *)
Definition save (p : Page) : IO (option PathError) :=
  let filename := "data/" +:+ Title p +:+ ".txt" in
  ioutil_WriteFile filename (Body p) (octal 6 0 0).

(** [func loadPage(title string)], returning the page or the error. *)
Definition loadPage (title : string) : IO (result Page) :=
  let filename := "data/" +:+ title +:+ ".txt" in
  (let* r := ioutil_ReadFile filename in
   match r with
   | Failed err => ret (Failed err)
   | Ok body => ret (Ok (mkPage title body))
   end)%io.

(* ===================================================================== *)
(** ** Requests and responses *)
(* ===================================================================== *)

(** [url.Values], in the order the parameters appear. *)
Abbreviation Values := (list (string * string)).

(** What the body of a request holds for [r.FormValue]: nothing (no body,
    or a body that is not a form), the parameters of a body of type
    [application/x-www-form-urlencoded], or the values of the non-file parts
    of a body of type [multipart/form-data]. *)
Inductive RequestBody :=
| NoForm
| UrlEncoded (vs : Values)
| Multipart (vs : Values).

(** The parts of [*http.Request] the program, the server and its router look
    at: [r.Method], [r.URL.Path], the parameters of [r.URL.RawQuery], and
    the form carried by the request body. *)
Record Request := mkRequest {
  Method : string;
  URL_Path : string;
  URL_Query : Values;
  Body_Form : RequestBody
}.

(** [r.RequestURI == "*"]. The server parses the request target into
    [r.URL]; the target [*] is the only one that gives the path [*] (every
    other target gives a path that is empty or starts with a slash). *)
Definition RequestURI_is_star (r : Request) : bool := String.eqb (URL_Path r) "*".

(** [r.ParseForm]: "For all requests, ParseForm parses the raw query from the
    URL. For POST, PUT, and PATCH requests, it also reads the request body,
    parses it as a form. Request body parameters take precedence over URL
    query string values in r.Form." *)
Definition reads_body (method : string) : bool :=
  String.eqb method "POST" || String.eqb method "PUT" || String.eqb method "PATCH".

(** [r.PostForm] after [r.ParseForm]: the parameters of a url-encoded body,
    for the three methods only. *)
Definition PostForm (r : Request) : Values :=
  if reads_body (Method r) then
    match Body_Form r with
    | UrlEncoded vs => vs
    | _ => []
    end
  else [].

(** The values [r.ParseMultipartForm] adds: those of a multipart body,
    whatever the method. *)
Definition MultipartForm_Value (r : Request) : Values :=
  match Body_Form r with
  | Multipart vs => vs
  | _ => []
  end.

(** [r.Form] as [r.FormValue] sees it. [FormValue] calls
    [ParseMultipartForm], which calls [ParseForm] and then appends the values
    of a multipart body: for each key the values of a url-encoded body come
    first, then those of the URL query, then those of a multipart body. *)
Definition Form (r : Request) : Values :=
  PostForm r ++ URL_Query r ++ MultipartForm_Value r.

Fixpoint Values_Get (key : string) (vs : Values) : string :=
  match vs with
  | [] => ""
  | (k, v) :: vs' => if String.eqb k key then v else Values_Get key vs'
  end.

(** [r.FormValue(key)]: the first value for [key] in [r.Form], or the empty
    string. *)
Definition FormValue (r : Request) (key : string) : string :=
  Values_Get key (Form r).

Definition StatusOK : Z := 200.
Definition StatusMovedPermanently : Z := 301.
Definition StatusFound : Z := 302.
Definition StatusNotFound : Z := 404.
Definition StatusBadRequest : Z := 400.
Definition StatusInternalServerError : Z := 500.

(** What a handler did with its [http.ResponseWriter]: the responders of
    [net/http] it called, and the output a template wrote. *)
Inductive Reply :=
| Redirect (url : string) (code : Z)
| Error (msg : string) (code : Z)
| Write (out : string)
| WriteHeader (code : Z).

(** The response writer is the sequence of replies put on it, oldest first. *)
Abbreviation ResponseWriter := (list Reply).

(** The status line of the response: the first reply decides it (a later
    [WriteHeader] is ignored by [net/http]); a handler that wrote nothing
    gets 200. *)
Definition StatusCode (w : ResponseWriter) : Z :=
  match w with
  | [] => StatusOK
  | Redirect _ code :: _ => code
  | Error _ code :: _ => code
  | Write _ :: _ => StatusOK
  | WriteHeader code :: _ => code
  end.

(** The [Location] header, set by a redirect. *)
Definition Location (w : ResponseWriter) : option string :=
  match w with
  | Redirect url _ :: _ => Some url
  | _ => None
  end.

(** [http.Redirect(w, r, url, code)]. Every target in this program starts
    with a slash, so the path of the request plays no part in it. *)
Definition http_Redirect (w : ResponseWriter) (r : Request) (url : string) (code : Z)
  : ResponseWriter := w ++ [Redirect url code].

(** [http.Error(w, msg, code)] *)
Definition http_Error (w : ResponseWriter) (msg : string) (code : Z)
  : ResponseWriter := w ++ [Error msg code].

(** [http.NotFound(w, r)] *)
Definition http_NotFound (w : ResponseWriter) (r : Request) : ResponseWriter :=
  http_Error w "404 page not found" StatusNotFound.

(* ===================================================================== *)
(** ** Templates *)
(* ===================================================================== *)

(** The template files [tmpl/edit.html] and [tmpl/view.html] are read at
    start-up and are not part of the source file: the parsed template set is
    a parameter of the handlers. Executing the template called [name] on a
    page gives the output it wrote and the error it stopped with, if any. *)
Definition Templates : Type := string -> Page -> string * option string.

(** [templates.ExecuteTemplate(w, name, p)] *)
Definition ExecuteTemplate (templates : Templates) (w : ResponseWriter)
    (name : string) (p : Page) : ResponseWriter * option string :=
  let (out, err) := templates name p in
  (match out with
   | EmptyString => w
   | _ => w ++ [Write out]
   end, err).

(* ===================================================================== *)
(** ** Handlers *)
(* ===================================================================== *)

(** [http.HandlerFunc] *)
Definition Handler : Type := ResponseWriter -> Request -> IO ResponseWriter.

Section Handlers.

Variable templates : Templates.

(** [func renderTemplate(w http.ResponseWriter, tmpl string, p *Page)] *)
Definition renderTemplate (w : ResponseWriter) (tmpl : string) (p : Page)
  : ResponseWriter :=
  let (w, err) := ExecuteTemplate templates w (tmpl +:+ ".html") p in
  match err with
  | Some e => http_Error w e StatusInternalServerError
  | None => w
  end.

(** [func rootHandler(w http.ResponseWriter, r *http.Request)] *)
Definition rootHandler : Handler := fun w r =>
  ret (http_Redirect w r "/view/FrontPage" StatusFound).

(** [func viewHandler(w http.ResponseWriter, r *http.Request, title string)] *)
Definition viewHandler (w : ResponseWriter) (r : Request) (title : string)
  : IO ResponseWriter :=
  (let* l := loadPage title in
   match l with
   | Failed _ => ret (http_Redirect w r ("/edit/" +:+ title) StatusFound)
   | Ok p => ret (renderTemplate w "view" p)
   end)%io.

(** [func editHandler(w http.ResponseWriter, r *http.Request, title string)] *)
Definition editHandler (w : ResponseWriter) (r : Request) (title : string)
  : IO ResponseWriter :=
  (let* l := loadPage title in
   let p := match l with
            | Failed _ => mkPage title []
            | Ok p => p
            end in
   ret (renderTemplate w "edit" p))%io.

(** [func saveHandler(w http.ResponseWriter, r *http.Request, title string)] *)
Definition saveHandler (w : ResponseWriter) (r : Request) (title : string)
  : IO ResponseWriter :=
  let body := FormValue r "body" in
  let p := mkPage title (bytes_of_string body) in
  (let* err := save p in
   match err with
   | Some e => ret (http_Error w (PathError_Error e) StatusInternalServerError)
   | None => ret (http_Redirect w r ("/view/" +:+ title) StatusFound)
   end)%io.

(** [func makeHandler(fn func(http.ResponseWriter, *http.Request, string)) http.HandlerFunc].
    [m[2]] is the second group; a match always has the three entries. *)
Definition makeHandler
    (fn : ResponseWriter -> Request -> string -> IO ResponseWriter) : Handler :=
  fun w r =>
    let m := validPath_FindStringSubmatch (URL_Path r) in
    match m with
    | None => ret (http_NotFound w r)
    | Some m => fn w r (nth 2 m "")
    end.

End Handlers.

(* ===================================================================== *)
(** ** The router: [http.ServeMux] as [main] uses it *)
(* ===================================================================== *)

(** [main] registers its handlers on the default [ServeMux] of [net/http]
    and serves with it. What the mux does with a request is part of what the
    program does, and is modelled after the library: a pattern ending in a
    slash names a subtree and the longest matching pattern wins, so the
    pattern [/] matches every path no other pattern matches; a request for a
    registered subtree without its trailing slash is redirected to the
    subtree; and a request whose path has [.] or [..] elements or repeated
    slashes is redirected to the cleaned path. A request with the target [*]
    is not a request for a path: the mux answers it 400, and the server
    answers it itself when its method is OPTIONS. *)

(** *** Path canonicalisation *)

(** The elements of a path between its slashes; [cur] is the element being
    read, reversed. *)
Fixpoint split_slash (cur : string) (s : string) : list string :=
  match s with
  | EmptyString => [String.rev cur]
  | String c s' =>
      if Ascii.eqb c "/" then String.rev cur :: split_slash "" s'
      else split_slash (String c cur) s'
  end.

(** One element of a rooted path against the elements kept so far (most
    recent first): empty and [.] elements are dropped, [..] removes the
    element before it and is dropped at the root. *)
Definition clean_step (kept : list string) (e : string) : list string :=
  if String.eqb e "" || String.eqb e "." then kept
  else if String.eqb e ".." then tail kept
  else e :: kept.

(** [path.Clean] on a rooted path. *)
Definition path_Clean (p : string) : string :=
  "/" +:+ String.concat "/" (rev (fold_left clean_step (split_slash "" p) [])).

(** [cleanPath] of [net/http]: "returns the canonical path for p, eliminating
    . and .. elements", keeping a trailing slash. *)
Definition cleanPath (p : string) : string :=
  match p with
  | EmptyString => "/"
  | String c _ =>
      let p := if Ascii.eqb c "/" then p else "/" +:+ p in
      let np := path_Clean p in
      if ends_with_slash p && negb (String.eqb np "/") then
        if Nat.eqb (String.length p) (String.length np + 1) && HasPrefix p np
        then p
        else np +:+ "/"
      else np
  end.

(** *** Registration and matching *)

Record muxEntry := mkMuxEntry { h : Handler; pattern : string }.

(** [m] holds every registered pattern, [es] the patterns that end in a
    slash, longest first. No pattern of this program names a host, so the
    host of the request plays no part in the matching and is left out. *)
Record ServeMux := mkServeMux {
  m : gmap string muxEntry;
  es : list muxEntry
}.

Definition NewServeMux : ServeMux := mkServeMux ∅ [].

Fixpoint appendSorted (es : list muxEntry) (e : muxEntry) : list muxEntry :=
  match es with
  | [] => [e]
  | x :: es' =>
      if Nat.ltb (String.length (pattern x)) (String.length (pattern e))
      then e :: x :: es'
      else x :: appendSorted es' e
  end.

(** [http.HandleFunc(pattern, handler)] on a mux. *)
Definition HandleFunc (pat : string) (handler : Handler) (mux : ServeMux) : ServeMux :=
  let e := mkMuxEntry handler pat in
  mkServeMux (<[pat := e]> (m mux))
             (if ends_with_slash pat then appendSorted (es mux) e else es mux).

(** [mux.match(path)]: "Check for exact match first", then the longest
    pattern ending in a slash that is a prefix of the path. *)
Definition mux_match (mux : ServeMux) (path : string) : option muxEntry :=
  match m mux !! path with
  | Some e => Some e
  | None => find (fun e => HasPrefix path (pattern e)) (es mux)
  end.

(** [http.NotFoundHandler()] and [http.RedirectHandler(url, code)]. *)
Definition NotFoundHandler : Handler := fun w r => ret (http_NotFound w r).

Definition RedirectHandler (url : string) (code : Z) : Handler :=
  fun w r => ret (http_Redirect w r url code).

(** [mux.handler(host, path)] *)
Definition mux_handler (mux : ServeMux) (path : string) : Handler :=
  match mux_match mux path with
  | Some e => h e
  | None => NotFoundHandler
  end.

(** [mux.shouldRedirectRLocked(host, path)]: the path is not registered but
    the path followed by a slash is. *)
Definition shouldRedirect (mux : ServeMux) (path : string) : bool :=
  match m mux !! path with
  | Some _ => false
  | None =>
      match path with
      | EmptyString => false
      | _ =>
          match m mux !! (path +:+ "/") with
          | Some _ => negb (ends_with_slash path)
          | None => false
          end
      end
  end.

(** [mux.Handler(r)]: a CONNECT request is matched as it is; any other
    request is first answered with a permanent redirect when its path is a
    registered subtree without its slash, or is not in canonical form. The
    redirect goes to the URL with the path given here and the query of the
    request. *)
Definition ServeMux_Handler (mux : ServeMux) (r : Request) : Handler :=
  if String.eqb (Method r) "CONNECT" then
    if shouldRedirect mux (URL_Path r)
    then RedirectHandler (URL_Path r +:+ "/") StatusMovedPermanently
    else mux_handler mux (URL_Path r)
  else
    let path := cleanPath (URL_Path r) in
    if shouldRedirect mux path
    then RedirectHandler (path +:+ "/") StatusMovedPermanently
    else if negb (String.eqb path (URL_Path r))
    then RedirectHandler path StatusMovedPermanently
    else mux_handler mux (URL_Path r).

(** [mux.ServeHTTP(w, r)]: a request whose target is [*] is answered 400;
    any other request is handed to the handler chosen for it. *)
Definition ServeMux_ServeHTTP (mux : ServeMux) : Handler :=
  fun w r =>
    if RequestURI_is_star r
    then ret (w ++ [WriteHeader StatusBadRequest])
    else ServeMux_Handler mux r w r.

(** [globalOptionsHandler] of the server: it answers [OPTIONS *] without
    writing a status or a body, which leaves the response at 200. *)
Definition globalOptionsHandler : Handler := fun w r => ret w.

(* ===================================================================== *)
(** ** [main] *)
(* ===================================================================== *)

Section Main.

Variable templates : Templates.

(** The four registrations of [main], in its order, on the default mux. *)
Definition DefaultServeMux : ServeMux :=
  HandleFunc "/save/" (makeHandler (saveHandler))
    (HandleFunc "/edit/" (makeHandler (editHandler templates))
      (HandleFunc "/view/" (makeHandler (viewHandler templates))
        (HandleFunc "/" rootHandler NewServeMux))).

(** The entries these registrations leave in the mux. *)
Definition root_entry : muxEntry := mkMuxEntry rootHandler "/".
Definition view_entry : muxEntry := mkMuxEntry (makeHandler (viewHandler templates)) "/view/".
Definition edit_entry : muxEntry := mkMuxEntry (makeHandler (editHandler templates)) "/edit/".
Definition save_entry : muxEntry := mkMuxEntry (makeHandler saveHandler) "/save/".

(** [serverHandler.ServeHTTP] for a server without a handler of its own:
    [OPTIONS *] goes to the server's own handler, everything else to the
    default mux. *)
Definition serverHandler_ServeHTTP : Handler :=
  fun w r =>
    if RequestURI_is_star r && String.eqb (Method r) "OPTIONS"
    then globalOptionsHandler w r
    else ServeMux_ServeHTTP DefaultServeMux w r.

(** [http.ListenAndServe(":8080", nil)]: every request is given a fresh
    response writer and served by the default mux. *)
Definition serve (r : Request) : IO ResponseWriter :=
  serverHandler_ServeHTTP [] r.

(** The server handling requests one after the other. *)
Fixpoint serve_all (rs : list Request) : IO (list ResponseWriter) :=
  match rs with
  | [] => ret []
  | r :: rs' =>
      (let* w := serve r in
       let* ws := serve_all rs' in
       ret (w :: ws))%io
  end.

End Main.

(** Requests as a browser sends them. *)
Definition GET (path : string) : Request := mkRequest "GET" path [] NoForm.

Definition POST (path : string) (form : Values) : Request :=
  mkRequest "POST" path [] (UrlEncoded form).

(** A file system with no files and no faults. *)
Definition empty_fs : FileSys := mkFileSys ∅ (fun _ => None) [].

(** A template set in the spirit of the two files of the program: the page's
    title and body between fixed markers; any other name is undefined. *)
Definition sample_templates : Templates := fun name p =>
  if String.eqb name "view.html"
  then ("<h1>" +:+ Title p +:+ "</h1><div>" +:+ string_of_bytes (Body p) +:+ "</div>", None)
  else if String.eqb name "edit.html"
  then ("<h1>Editing " +:+ Title p +:+ "</h1><textarea name=body>"
        +:+ string_of_bytes (Body p) +:+ "</textarea>", None)
  else ("", Some ("html/template: " +:+ name +:+ " is undefined")).

(** Saving a run of bodies under one title, whatever each save returns. *)
Fixpoint save_each (title : string) (bodies : list bytes) : IO unit :=
  match bodies with
  | [] => ret tt
  | b :: bodies' =>
      (let* _ := save (mkPage title b) in save_each title bodies')%io
  end.

(** A file system in which [data/Test.txt] is already there, group- and
    world-readable as a checkout or an editor leaves it. *)
Definition checkout_fs : FileSys :=
  mkFileSys {[ "data/Test.txt" := mkFile (bytes_of_string "old") (octal 6 4 4) ]}
            (fun _ => None) [].

(** A file system whose [data] directory is missing: no name below it can be
    opened. *)
Definition no_data_dir_fs : FileSys :=
  mkFileSys ∅ (fun name => if HasPrefix name "data/" then Some ENOENT else None) [].

(* ===================================================================== *)
(** ** Vocabulary of the properties *)
(* ===================================================================== *)

(** A call into the file system that names the file of a page with a title
    in [[a-zA-Z0-9]+]. *)
Definition page_file_op (o : FsOp) : Prop :=
  exists title, alnum_plus title = true /\ op_name o = page_filename title.

(** A computation whose calls into the file system all name such files. *)
Definition page_ops_only {A} (c : IO A) : Prop :=
  forall fs, exists ops,
    oplog (snd (c fs)) = ops ++ oplog fs /\ Forall page_file_op ops.

(** The request is matched on the path it came with: it is a CONNECT
    request, or its path is already in canonical form. *)
Definition served_as_is (r : Request) : Prop :=
  Method r = "CONNECT" \/ cleanPath (URL_Path r) = URL_Path r.

(** The path lies below one of the three subtrees registered by [main]. *)
Definition under_wiki_prefix (path : string) : bool :=
  HasPrefix path "/view/" || HasPrefix path "/edit/" || HasPrefix path "/save/".

(** The path is one of the three subtree roots without its slash. *)
Definition subtree_root (path : string) : Prop :=
  path = "/view" \/ path = "/edit" \/ path = "/save".

(** The requests of the scenarios: a form posted to [/save/Test], and the
    same body sent as a query parameter of a GET. *)
Definition post_save_Test (body : string) : Request :=
  POST "/save/Test" [("body", body)].

Definition get_save_Test (body : string) : Request :=
  mkRequest "GET" "/save/Test" [("body", body)] NoForm.

(** The file system after [hello] was saved under [Test]. *)
Definition hello_fs : FileSys :=
  snd (save (mkPage "Test" (bytes_of_string "hello")) empty_fs).

(** How a request was answered: by the server or the router on the target
    [*], by a redirect of the router, by the 404 of the router or of
    [makeHandler], by the root handler, or by one of the three business
    handlers on a validated title. *)
Inductive Served (templates : Templates) (r : Request) (fs : FileSys) : Prop :=
| ByOptions :
    URL_Path r = "*" ->
    serve templates r fs = ([], fs) ->
    Served templates r fs
| ByBadRequest :
    URL_Path r = "*" ->
    serve templates r fs = ([WriteHeader StatusBadRequest], fs) ->
    Served templates r fs
| ByRouter (url : string) :
    serve templates r fs = ([Redirect url StatusMovedPermanently], fs) ->
    Served templates r fs
| ByNotFound :
    serve templates r fs = ([Error "404 page not found" StatusNotFound], fs) ->
    Served templates r fs
| ByRoot :
    serve templates r fs = ([Redirect "/view/FrontPage" StatusFound], fs) ->
    Served templates r fs
| ByView (title : string) :
    alnum_plus title = true -> URL_Path r = "/view/" +:+ title ->
    serve templates r fs = viewHandler templates [] r title fs ->
    Served templates r fs
| ByEdit (title : string) :
    alnum_plus title = true -> URL_Path r = "/edit/" +:+ title ->
    serve templates r fs = editHandler templates [] r title fs ->
    Served templates r fs
| BySave (title : string) :
    alnum_plus title = true -> URL_Path r = "/save/" +:+ title ->
    serve templates r fs = saveHandler [] r title fs ->
    Served templates r fs.

(** A store as the program alone builds it: every file is the file of a page
    with a title in [[a-zA-Z0-9]+] and has mode 0600. *)
Definition owner_only_store (fs : FileSys) : Prop :=
  forall name f, files fs !! name = Some f ->
    perm f = octal 6 0 0 /\
    exists title, alnum_plus title = true /\ name = page_filename title.

(** The form of the request has no value for the key. *)
Definition no_form_value (r : Request) (key : string) : Prop :=
  forall v, ~ In (key, v) (Form r).


(* ===================================================================== *)
(** * Properties *)
(* ===================================================================== *)

(** ** Strings and the validator *)

Lemma app_cons (a : ascii) (s t : string) : String a s +:+ t = String a (s +:+ t).
Proof. reflexivity. Qed.

Lemma app_nil_l (t : string) : "" +:+ t = t.
Proof. reflexivity. Qed.

Ltac str_norm := repeat (rewrite ?app_cons, ?app_nil_l in *).

Lemma strip_prefix_app (pre s : string) : strip_prefix pre (pre +:+ s) = Some s.
Proof.
  induction pre as [|a pre IH]; [reflexivity|].
  rewrite app_cons. simpl. now rewrite Ascii.eqb_refl.
Qed.

Lemma strip_prefix_Some (pre s rest : string) :
  strip_prefix pre s = Some rest -> s = pre +:+ rest.
Proof.
  revert s. induction pre as [|a pre IH]; intros s H; simpl in H.
  - now inversion H.
  - destruct s as [|b s]; [discriminate|].
    destruct (Ascii.eqb a b) eqn:E; [|discriminate].
    apply Ascii.eqb_eq in E. subst b. rewrite app_cons. f_equal. now apply IH.
Qed.

Lemma HasPrefix_app (pre s : string) : HasPrefix (pre +:+ s) pre = true.
Proof. unfold HasPrefix. now rewrite strip_prefix_app. Qed.

Lemma HasPrefix_true (s pre : string) :
  HasPrefix s pre = true -> exists rest, s = pre +:+ rest.
Proof.
  unfold HasPrefix. destruct (strip_prefix pre s) as [rest|] eqn:E; [|discriminate].
  intros _. exists rest. now apply strip_prefix_Some.
Qed.

Lemma match_action_Some (s a a' t : string) :
  match_action s a = Some (a', t) ->
  a' = a /\ alnum_plus t = true /\ s = a +:+ "/" +:+ t.
Proof.
  unfold match_action. intros H.
  destruct (strip_prefix a s) as [rest|] eqn:E1; [|discriminate].
  destruct (strip_prefix "/" rest) as [t'|] eqn:E2; [|discriminate].
  destruct (alnum_plus t') eqn:E3; [|discriminate].
  inversion H; subst a' t'.
  apply strip_prefix_Some in E1, E2. subst. auto.
Qed.

Lemma first_action_Some (s : string) (actions : list string) (a t : string) :
  first_action s actions = Some (a, t) ->
  In a actions /\ alnum_plus t = true /\ s = a +:+ "/" +:+ t.
Proof.
  induction actions as [|x actions IH]; simpl; [discriminate|].
  destruct (match_action s x) as [[a' t']|] eqn:E.
  - intros H. inversion H; subst a' t'.
    apply match_action_Some in E as (-> & ? & ?). auto.
  - intros H. apply IH in H as (? & ? & ?). auto.
Qed.

(** A match has exactly three entries: the path, one of the three actions
    and a title in [[a-zA-Z0-9]+], and the path is made of these. *)
Lemma FindStringSubmatch_Some (path : string) (l : list string) :
  validPath_FindStringSubmatch path = Some l ->
  exists a t, l = [path; a; t] /\ In a validPath_actions /\
              alnum_plus t = true /\ path = "/" +:+ a +:+ "/" +:+ t.
Proof.
  unfold validPath_FindStringSubmatch. intros H.
  destruct (strip_prefix "/" path) as [s|] eqn:E1; [|discriminate].
  destruct (first_action s validPath_actions) as [[a t]|] eqn:E2; [|discriminate].
  inversion H; subst l. exists a, t.
  apply first_action_Some in E2 as (? & ? & ->).
  apply strip_prefix_Some in E1. auto.
Qed.

Lemma match_action_app (a t : string) :
  alnum_plus t = true -> match_action (a +:+ "/" +:+ t) a = Some (a, t).
Proof.
  intros Ht. unfold match_action.
  rewrite strip_prefix_app, strip_prefix_app. now rewrite Ht.
Qed.

(** Every path of that shape matches. *)
Lemma FindStringSubmatch_complete (a t : string) :
  In a validPath_actions -> alnum_plus t = true ->
  validPath_FindStringSubmatch ("/" +:+ a +:+ "/" +:+ t)
  = Some ["/" +:+ a +:+ "/" +:+ t; a; t].
Proof.
  intros Ha Ht. unfold validPath_FindStringSubmatch.
  rewrite strip_prefix_app.
  assert (first_action (a +:+ "/" +:+ t) validPath_actions = Some (a, t)) as ->;
    [|reflexivity].
  unfold validPath_actions, first_action.
  simpl in Ha. destruct Ha as [<-|[<-|[<-|[]]]].
  - now rewrite match_action_app.
  - change (match_action ("save" +:+ "/" +:+ t) "edit") with (@None (string * string)).
    now rewrite match_action_app.
  - change (match_action ("view" +:+ "/" +:+ t) "edit") with (@None (string * string)).
    change (match_action ("view" +:+ "/" +:+ t) "save") with (@None (string * string)).
    now rewrite match_action_app.
Qed.

(** ** The matcher against the regular expression *)

Lemma string_forallb_app (f : ascii -> bool) (s t : string) :
  string_forallb f (s +:+ t) = string_forallb f s && string_forallb f t.
Proof.
  induction s as [|a s IH]; [reflexivity|].
  rewrite app_cons. cbn [string_forallb]. rewrite IH. apply andb_assoc.
Qed.

Lemma alnum_plus_forall (t : string) :
  alnum_plus t = true <-> t <> "" /\ string_forallb alnum_class t = true.
Proof.
  destruct t as [|c t]; cbn [alnum_plus].
  - split; [discriminate|]. intros [H _]. now contradiction H.
  - split; [intros H; split; [discriminate|exact H]|intros [_ H]; exact H].
Qed.

Lemma re_match_plus_class (f : ascii -> bool) (r : regexp) (s : string) :
  re_match r s -> r = RPlus (RClass f) ->
  s <> "" /\ string_forallb f s = true.
Proof.
  induction 1 as [ | | | | |r s H IH|r s1 s2 H1 IH1 H2 IH2]; intros E;
    try discriminate E.
  - inversion E; subst r. inversion H; subst. split; [discriminate|].
    cbn. now rewrite andb_true_r.
  - inversion E; subst r. destruct (IH2 eq_refl) as [Hne Hall].
    inversion H1; subst. split; [discriminate|].
    rewrite string_forallb_app. cbn [string_forallb].
    now rewrite Hall, andb_true_r, andb_true_r.
Qed.

Lemma re_match_class_plus (f : ascii -> bool) (s : string) :
  s <> "" -> string_forallb f s = true -> re_match (RPlus (RClass f)) s.
Proof.
  induction s as [|c s IH]; [intros H; now contradiction H|].
  intros _ H. cbn [string_forallb] in H. apply andb_true_iff in H as [Hc Hs].
  destruct s as [|d s].
  - apply MPlusOne. now constructor.
  - change (String c (String d s)) with (String c "" +:+ String d s).
    apply MPlusMore; [now constructor|]. apply IH; [discriminate|exact Hs].
Qed.

Lemma validPath_group1_iff (a : string) :
  re_match validPath_group1 a <-> In a validPath_actions.
Proof.
  unfold validPath_group1. split.
  - intros H. inversion H as [ | | |? ? ? He|? ? ? Hr| | ]; subst; clear H.
    + inversion He; subst. simpl; auto.
    + inversion Hr as [ | | |? ? ? Hs|? ? ? Hv| | ]; subst; clear Hr.
      * inversion Hs; subst. simpl; auto.
      * inversion Hv; subst. simpl; auto.
  - simpl. intros [<-|[<-|[<-|[]]]].
    + apply MAltL. constructor.
    + apply MAltR, MAltL. constructor.
    + apply MAltR, MAltR. constructor.
Qed.

Lemma validPath_group2_iff (t : string) :
  re_match validPath_group2 t <-> alnum_plus t = true.
Proof.
  unfold validPath_group2. rewrite alnum_plus_forall. split.
  - intros H. now apply (re_match_plus_class alnum_class) in H.
  - intros [Hne Hall]. now apply re_match_class_plus.
Qed.

Lemma validPath_split (path : string) :
  re_match validPath path <->
  exists a title,
    path = "/" +:+ a +:+ "/" +:+ title /\
    re_match validPath_group1 a /\ re_match validPath_group2 title.
Proof.
  unfold validPath. split.
  - intros H.
    inversion H as [ | |? ? s1 s2 Hl H2| | | | ]; subst; clear H.
    inversion Hl; subst; clear Hl.
    inversion H2 as [ | |? ? sa s3 Ha H3| | | | ]; subst; clear H2.
    inversion H3 as [ | |? ? s4 t Hs Ht| | | | ]; subst; clear H3.
    inversion Hs; subst; clear Hs.
    exists sa, t. auto.
  - intros (a & t & -> & Ha & Ht).
    apply MCat; [constructor|]. apply MCat; [exact Ha|].
    apply MCat; [constructor|exact Ht].
Qed.

(** X14. The matcher agrees with the regular expression
    [^/(edit|save|view)/([a-zA-Z0-9]+)$]: it returns a match exactly for the
    paths the expression matches as a whole, and what it returns is the path
    followed by its two groups, that is, the part [a] matched by
    [(edit|save|view)] and the part [title] matched by [([a-zA-Z0-9]+)] in
    the one way of writing the path as [/a/title]. *)
Theorem FindStringSubmatch_regexp (path : string) :
  (re_match validPath path <->
   exists l, validPath_FindStringSubmatch path = Some l) /\
  (forall l,
     validPath_FindStringSubmatch path = Some l <->
     exists a title,
       l = [path; a; title] /\ path = "/" +:+ a +:+ "/" +:+ title /\
       re_match validPath_group1 a /\ re_match validPath_group2 title).
Proof.
  assert (Hgroups : forall l,
     validPath_FindStringSubmatch path = Some l <->
     exists a title,
       l = [path; a; title] /\ path = "/" +:+ a +:+ "/" +:+ title /\
       re_match validPath_group1 a /\ re_match validPath_group2 title).
  { intros l. split.
    - intros H. apply FindStringSubmatch_Some in H as (a & t & -> & Ha & Ht & Hp).
      exists a, t. repeat split; try assumption.
      + now apply validPath_group1_iff.
      + now apply validPath_group2_iff.
    - intros (a & t & -> & -> & Ha & Ht).
      apply FindStringSubmatch_complete.
      + now apply validPath_group1_iff.
      + now apply validPath_group2_iff. }
  split; [|exact Hgroups].
  rewrite validPath_split. split.
  - intros (a & t & Hp & Ha & Ht).
    exists [path; a; t]. apply Hgroups. exists a, t. auto.
  - intros (l & H). apply Hgroups in H as (a & t & _ & Hp & Ha & Ht).
    exists a, t. auto.
Qed.

(** ** The Page Store *)

Lemma save_eq (p : Page) (fs : FileSys) :
  save p fs =
  let name := page_filename (Title p) in
  let fs0 := log_op (OpWriteFile name (Body p) (octal 6 0 0)) fs in
  match fault fs name with
  | Some e => (Some (mkPathError "open" name e), fs0)
  | None =>
      (None, mkFileSys
               (<[name := mkFile (Body p)
                            match files fs !! name with
                            | Some f => perm f
                            | None => octal 6 0 0
                            end]> (files fs))
               (fault fs) (oplog fs0))
  end.
Proof. reflexivity. Qed.

Lemma loadPage_eq (title : string) (fs : FileSys) :
  loadPage title fs =
  let name := page_filename title in
  (match fault fs name with
   | Some e => Failed (mkPathError "open" name e)
   | None =>
       match files fs !! name with
       | Some f => Ok (mkPage title (contents f))
       | None => Failed (mkPathError "open" name ENOENT)
       end
   end, log_op (OpReadFile name) fs).
Proof.
  unfold loadPage, bind, ioutil_ReadFile, page_filename. simpl.
  destruct (fault fs _); [reflexivity|].
  destruct (files fs !! _); reflexivity.
Qed.

(** A save that returns no error leaves the page's file with exactly the
    saved body, and the name can be opened. *)
Lemma save_ok_inv (p : Page) (fs fs' : FileSys) :
  save p fs = (None, fs') ->
  fault fs' (page_filename (Title p)) = None /\
  contents <$> files fs' !! page_filename (Title p) = Some (Body p).
Proof.
  rewrite save_eq. cbv zeta.
  destruct (fault fs (page_filename (Title p))) eqn:E; [discriminate|].
  intros H. inversion H; subst fs'; clear H. cbn [files fault].
  split; [assumption|]. now rewrite lookup_insert_eq.
Qed.

(** C1. Round trip of the Page Store: after any run of saves under a
    title, a save that returns no error followed by a load of the same title
    gives back the page with exactly the body saved last; the file holds that
    body and nothing of the earlier ones. *)
Theorem save_load_roundtrip (title : string) (bodies : list bytes) (b : bytes)
    (fs fs' : FileSys) :
  save (mkPage title b) (snd (save_each title bodies fs)) = (None, fs') ->
  fst (loadPage title fs') = Ok (mkPage title b) /\
  contents <$> files fs' !! page_filename title = Some b.
Proof.
  intros H. apply save_ok_inv in H as [Hf Hc]. cbn [Title Body] in *.
  split; [|exact Hc].
  rewrite loadPage_eq. cbv zeta. cbn [fst]. rewrite Hf.
  destruct (files fs' !! page_filename title) as [f|]; [|discriminate].
  cbn in Hc. now inversion Hc.
Qed.

Lemma save_load_roundtrip_witness :
  fst (loadPage "Test"
         (snd (save (mkPage "Test" (bytes_of_string "world"))
                 (snd (save_each "Test" [bytes_of_string "hello"] empty_fs)))))
  = Ok (mkPage "Test" (bytes_of_string "world")) /\
  contents <$>
    files (snd (save (mkPage "Test" (bytes_of_string "world"))
                  (snd (save_each "Test" [bytes_of_string "hello"] empty_fs))))
    !! page_filename "Test"
  = Some (bytes_of_string "world").
Proof.
  apply (save_load_roundtrip "Test" [bytes_of_string "hello"]
           (bytes_of_string "world") empty_fs).
  vm_compute. reflexivity.
Defined.

(** ** Saves succeed when the file can be opened *)

Lemma save_each_fault (title : string) (bodies : list bytes) (fs : FileSys) :
  fault (snd (save_each title bodies fs)) = fault fs.
Proof.
  revert fs. induction bodies as [|b bodies IH]; intros fs; [reflexivity|].
  cbn [save_each]. unfold bind. rewrite save_eq. cbv zeta.
  destruct (fault fs (page_filename (Title (mkPage title b))));
    rewrite IH; reflexivity.
Qed.

Lemma save_each_then_save_succeeds (title : string) (bodies : list bytes)
    (b : bytes) (fs : FileSys) :
  fault fs (page_filename title) = None ->
  fst (save (mkPage title b) (snd (save_each title bodies fs))) = None.
Proof.
  intros Hf. rewrite save_eq. cbv zeta. cbn [Title].
  now rewrite save_each_fault, Hf.
Qed.

(** ** The routes of [main] *)

Section Routes.

Variable templates : Templates.

Lemma DefaultServeMux_es :
  es (DefaultServeMux templates) = [view_entry templates; edit_entry templates; save_entry; root_entry].
Proof. reflexivity. Qed.

Lemma DefaultServeMux_m :
  m (DefaultServeMux templates) =
  <["/save/" := save_entry]> (<["/edit/" := edit_entry templates]>
    (<["/view/" := view_entry templates]> (<["/" := root_entry]> ∅))).
Proof. reflexivity. Qed.

(** Which entry serves a path: the longest of the four patterns that is a
    prefix of it. *)
Lemma mux_match_Default (path : string) :
  mux_match (DefaultServeMux templates) path =
  if HasPrefix path "/view/" then Some (view_entry templates)
  else if HasPrefix path "/edit/" then Some (edit_entry templates)
  else if HasPrefix path "/save/" then Some save_entry
  else if HasPrefix path "/" then Some root_entry
  else None.
Proof.
  unfold mux_match. rewrite DefaultServeMux_m, DefaultServeMux_es.
  rewrite !lookup_insert, lookup_empty.
  repeat case_decide; subst; try reflexivity.
Qed.


Lemma length_app (s t : string) :
  String.length (s +:+ t) = (String.length s + String.length t)%nat.
Proof.
  induction s as [|a s IH]; [reflexivity|].
  rewrite app_cons. cbn [String.length]. now rewrite IH.
Qed.

Lemma append_inj_r (s1 s2 t : string) : s1 +:+ t = s2 +:+ t -> s1 = s2.
Proof.
  revert s2. induction s1 as [|a s1 IH]; intros [|b s2] H; str_norm.
  - reflexivity.
  - exfalso. apply (f_equal String.length) in H.
    rewrite ?app_cons in H. cbn [String.length] in H.
    rewrite length_app in H. lia.
  - exfalso. apply (f_equal String.length) in H.
    rewrite ?app_cons in H. cbn [String.length] in H.
    rewrite length_app in H. lia.
  - inversion H. f_equal. now apply IH.
Qed.

(** The only paths the mux answers with "add the trailing slash" are the
    three subtree roots without their slash. *)
Lemma shouldRedirect_Default (path : string) :
  path <> "/view" -> path <> "/edit" -> path <> "/save" ->
  shouldRedirect (DefaultServeMux templates) path = false.
Proof.
  intros Hv He Hs. unfold shouldRedirect.
  destruct (m (DefaultServeMux templates) !! path); [reflexivity|].
  destruct path as [|c path']; [reflexivity|].
  destruct (m (DefaultServeMux templates) !! (String c path' +:+ "/")) eqn:E;
    [|reflexivity].
  exfalso. rewrite DefaultServeMux_m in E.
  rewrite !lookup_insert, lookup_empty in E.
  repeat case_decide; try discriminate;
    match goal with
    | H : ?lit = String c path' +:+ "/" |- _ =>
        change lit with (String.substring 0 (String.length lit - 1) lit +:+ "/") in H;
        apply append_inj_r in H; cbn in H; try congruence
    end.
Qed.

Example shouldRedirect_view : shouldRedirect (DefaultServeMux templates) "/view" = true.
Proof. reflexivity. Qed.

End Routes.

(** ** Canonical paths *)

Lemma alnum_class_not_slash (c : ascii) :
  alnum_class c = true -> Ascii.eqb c "/" = false /\ Ascii.eqb c "." = false.
Proof.
  destruct c as [[] [] [] [] [] [] [] []]; vm_compute; intros H;
    first [discriminate H | split; reflexivity].
Qed.

Lemma split_slash_alnum (cur t : string) :
  string_forallb alnum_class t = true ->
  split_slash cur t = [String.rev_app cur t].
Proof.
  revert cur. induction t as [|c t IH]; intros cur H; [reflexivity|].
  cbn [string_forallb] in H. apply andb_true_iff in H as [Hc Ht].
  cbn [split_slash]. destruct (alnum_class_not_slash c Hc) as [-> _].
  now rewrite IH.
Qed.

Lemma last_char_app (s t : string) :
  t <> "" -> last_char (s +:+ t) = last_char t.
Proof.
  intros Ht. induction s as [|a s IH]; [reflexivity|].
  rewrite app_cons. cbn [last_char]. rewrite IH.
  destruct (s +:+ t) eqn:E; [|reflexivity].
  destruct s; [|discriminate]. now rewrite app_nil_l in E.
Qed.

Lemma alnum_last_char (t : string) :
  alnum_plus t = true -> ends_with_slash t = false.
Proof.
  unfold ends_with_slash. destruct t as [|c t]; [discriminate|].
  cbn [alnum_plus]. revert c. induction t as [|d t IH]; intros c H.
  - cbn in H. rewrite andb_true_r in H.
    cbn [last_char]. now destruct (alnum_class_not_slash c H) as [-> _].
  - cbn [string_forallb] in H. apply andb_true_iff in H as [_ H].
    change (last_char (String c (String d t))) with (last_char (String d t)).
    now apply IH.
Qed.

Lemma alnum_plus_not_dots (t : string) :
  alnum_plus t = true ->
  String.eqb t "" || String.eqb t "." = false /\ String.eqb t ".." = false.
Proof.
  destruct t as [|c t]; [discriminate|]. cbn [alnum_plus string_forallb].
  intros H. apply andb_true_iff in H as [Hc _].
  destruct (alnum_class_not_slash c Hc) as [_ Hd].
  cbn [String.eqb orb]. now rewrite Hd.
Qed.

(** The paths the validator accepts are in canonical form: the router
    serves them as they are. *)
Lemma cleanPath_valid (a t : string) :
  In a validPath_actions -> alnum_plus t = true ->
  cleanPath ("/" +:+ a +:+ "/" +:+ t) = "/" +:+ a +:+ "/" +:+ t.
Proof.
  intros Ha Ht.
  assert (Hs : string_forallb alnum_class t = true)
    by (destruct t; [discriminate|exact Ht]).
  assert (Hne : t <> "") by (intros ->; discriminate).
  destruct (alnum_plus_not_dots t Ht) as [Hd1 Hd2].
  assert (Hclean : path_Clean ("/" +:+ a +:+ "/" +:+ t) = "/" +:+ a +:+ "/" +:+ t).
  { unfold path_Clean. f_equal.
    simpl in Ha. destruct Ha as [<-|[<-|[<-|[]]]]; str_norm;
      cbn [split_slash Ascii.eqb Bool.eqb]; rewrite (split_slash_alnum "" t Hs);
      cbn [fold_left String.rev String.rev_app];
      unfold clean_step at 1; rewrite Hd1, Hd2; reflexivity. }
  unfold cleanPath. rewrite app_cons, app_nil_l.
  rewrite Ascii.eqb_refl. cbv zeta.
  change (String "/" (a +:+ "/" +:+ t)) with ("/" +:+ a +:+ "/" +:+ t).
  rewrite Hclean.
  assert (ends_with_slash ("/" +:+ a +:+ "/" +:+ t) = false) as ->; [|reflexivity].
  unfold ends_with_slash.
  replace ("/" +:+ a +:+ "/" +:+ t) with (("/" +:+ a +:+ "/") +:+ t).
  - rewrite last_char_app by assumption. now apply alnum_last_char.
  - simpl in Ha. destruct Ha as [<-|[<-|[<-|[]]]]; reflexivity.
Qed.

(** A canonical path starts with a slash. *)
Lemma cleanPath_rooted (p : string) : HasPrefix (cleanPath p) "/" = true.
Proof.
  unfold cleanPath. destruct p as [|c p]; [reflexivity|].
  destruct (Ascii.eqb c "/") eqn:E; cbv zeta.
  - apply Ascii.eqb_eq in E. subst c.
    destruct (_ && _); [destruct (_ && _)|]; reflexivity.
  - destruct (_ && _); [destruct (_ && _)|]; reflexivity.
Qed.

(** ** Serving a request *)

Section Serving.

Variable templates : Templates.

Lemma subtree_root_not_under (path : string) :
  under_wiki_prefix path = true -> ~ subtree_root path.
Proof. intros H [-> | [-> | ->]]; discriminate H. Qed.

Lemma rooted_not_star (path : string) :
  HasPrefix path "/" = true -> path <> "*".
Proof. intros H ->. discriminate H. Qed.

(** A request for a path is handed to the handler the mux chooses. *)
Lemma serve_not_star (r : Request) :
  URL_Path r <> "*" ->
  serve templates r = ServeMux_Handler (DefaultServeMux templates) r [] r.
Proof.
  intros H. unfold serve, serverHandler_ServeHTTP, ServeMux_ServeHTTP.
  unfold RequestURI_is_star. apply String.eqb_neq in H. now rewrite H.
Qed.

(** A request served as it is goes to the handler of the longest pattern. *)
Lemma ServeMux_Handler_as_is (r : Request) :
  served_as_is r -> ~ subtree_root (URL_Path r) ->
  ServeMux_Handler (DefaultServeMux templates) r
  = mux_handler (DefaultServeMux templates) (URL_Path r).
Proof.
  intros Has Hroot. unfold ServeMux_Handler.
  assert (Hsr : shouldRedirect (DefaultServeMux templates) (URL_Path r) = false).
  { apply shouldRedirect_Default; intros E; apply Hroot; unfold subtree_root; auto. }
  destruct (String.eqb (Method r) "CONNECT") eqn:Em.
  - now rewrite Hsr.
  - destruct Has as [Hc|Hc].
    + rewrite Hc in Em. discriminate Em.
    + cbv zeta. rewrite Hc, Hsr, String.eqb_refl. reflexivity.
Qed.

Lemma mux_handler_view (path : string) :
  HasPrefix path "/view/" = true ->
  mux_handler (DefaultServeMux templates) path = makeHandler (viewHandler templates).
Proof. intros H. unfold mux_handler. now rewrite mux_match_Default, H. Qed.

Lemma mux_handler_edit (path : string) :
  HasPrefix path "/edit/" = true ->
  mux_handler (DefaultServeMux templates) path = makeHandler (editHandler templates).
Proof.
  intros H. unfold mux_handler. rewrite mux_match_Default, H.
  destruct (HasPrefix_true _ _ H) as [rest ->]. reflexivity.
Qed.

Lemma mux_handler_save (path : string) :
  HasPrefix path "/save/" = true ->
  mux_handler (DefaultServeMux templates) path = makeHandler saveHandler.
Proof.
  intros H. unfold mux_handler. rewrite mux_match_Default, H.
  destruct (HasPrefix_true _ _ H) as [rest ->]. reflexivity.
Qed.

Lemma mux_handler_root (path : string) :
  HasPrefix path "/" = true -> under_wiki_prefix path = false ->
  mux_handler (DefaultServeMux templates) path = rootHandler.
Proof.
  intros H Hu. unfold under_wiki_prefix in Hu.
  apply orb_false_iff in Hu as [Hu Hs]. apply orb_false_iff in Hu as [Hv He].
  unfold mux_handler. now rewrite mux_match_Default, Hv, He, Hs, H.
Qed.

Lemma makeHandler_valid fn (w : ResponseWriter) (r : Request) (a t : string) :
  In a validPath_actions -> alnum_plus t = true ->
  URL_Path r = "/" +:+ a +:+ "/" +:+ t ->
  makeHandler fn w r = fn w r t.
Proof.
  intros Ha Ht Hp. unfold makeHandler.
  rewrite Hp, FindStringSubmatch_complete by assumption. reflexivity.
Qed.

Lemma makeHandler_invalid fn (w : ResponseWriter) (r : Request) :
  validPath_FindStringSubmatch (URL_Path r) = None ->
  makeHandler fn w r = ret (http_NotFound w r).
Proof. intros H. unfold makeHandler. now rewrite H. Qed.

(** A path the validator accepts reaches its handler with the title. *)
Lemma served_valid (r : Request) (a t : string) :
  In a validPath_actions -> alnum_plus t = true ->
  URL_Path r = "/" +:+ a +:+ "/" +:+ t ->
  ServeMux_Handler (DefaultServeMux templates) r
  = mux_handler (DefaultServeMux templates) (URL_Path r).
Proof.
  intros Ha Ht Hp. apply ServeMux_Handler_as_is.
  - right. rewrite Hp. now apply cleanPath_valid.
  - apply subtree_root_not_under. rewrite Hp.
    simpl in Ha. destruct Ha as [<-|[<-|[<-|[]]]]; reflexivity.
Qed.

Lemma serve_view (r : Request) (title : string) :
  alnum_plus title = true -> URL_Path r = "/view/" +:+ title ->
  serve templates r = viewHandler templates [] r title.
Proof.
  intros Ht Hp.
  rewrite serve_not_star by (apply rooted_not_star; rewrite Hp; reflexivity).
  rewrite (served_valid r "view" title) by (simpl; auto).
  rewrite mux_handler_view by (rewrite Hp; apply HasPrefix_app).
  apply (makeHandler_valid _ _ _ "view"); simpl; auto.
Qed.

Lemma serve_edit (r : Request) (title : string) :
  alnum_plus title = true -> URL_Path r = "/edit/" +:+ title ->
  serve templates r = editHandler templates [] r title.
Proof.
  intros Ht Hp.
  rewrite serve_not_star by (apply rooted_not_star; rewrite Hp; reflexivity).
  rewrite (served_valid r "edit" title) by (simpl; auto).
  rewrite mux_handler_edit by (rewrite Hp; apply HasPrefix_app).
  apply (makeHandler_valid _ _ _ "edit"); simpl; auto.
Qed.

Lemma serve_save (r : Request) (title : string) :
  alnum_plus title = true -> URL_Path r = "/save/" +:+ title ->
  serve templates r = saveHandler [] r title.
Proof.
  intros Ht Hp.
  rewrite serve_not_star by (apply rooted_not_star; rewrite Hp; reflexivity).
  rewrite (served_valid r "save" title) by (simpl; auto).
  rewrite mux_handler_save by (rewrite Hp; apply HasPrefix_app).
  apply (makeHandler_valid _ _ _ "save"); simpl; auto.
Qed.

End Serving.

(** ** Routing properties *)

Section Routing.

Variable templates : Templates.

(** C8. Every request for the exact path [/] (a GET in particular) is
    answered by the root handler: a 302 (Found) redirect whose target is
    [/view/FrontPage], and nothing else happens. *)
Theorem root_redirects_to_FrontPage (r : Request) (fs : FileSys) :
  URL_Path r = "/" ->
  serve templates r fs = ([Redirect "/view/FrontPage" StatusFound], fs) /\
  StatusCode (fst (serve templates r fs)) = 302 /\
  Location (fst (serve templates r fs)) = Some "/view/FrontPage".
Proof.
  intros Hp.
  assert (H : serve templates r fs = ([Redirect "/view/FrontPage" StatusFound], fs)).
  { rewrite serve_not_star by (rewrite Hp; discriminate).
    rewrite ServeMux_Handler_as_is.
    - rewrite mux_handler_root by (rewrite Hp; reflexivity). reflexivity.
    - right. rewrite Hp. reflexivity.
    - rewrite Hp. intros [E | [E | E]]; discriminate E. }
  rewrite H. auto.
Qed.

(** C9, as the code has it. A request that is matched on the path it came
    with (its path is in canonical form, or it is a CONNECT request), whose
    path starts with a slash, is not one of [/view], [/edit], [/save] and
    does not lie below [/view/], [/edit/] or [/save/], is dispatched to the
    root handler: a 302 redirect to [/view/FrontPage], not a 404. *)
Theorem catch_all_root (r : Request) (fs : FileSys) :
  served_as_is r ->
  HasPrefix (URL_Path r) "/" = true ->
  ~ subtree_root (URL_Path r) ->
  under_wiki_prefix (URL_Path r) = false ->
  serve templates r fs = rootHandler [] r fs /\
  serve templates r fs = ([Redirect "/view/FrontPage" StatusFound], fs).
Proof.
  intros Has Hs Hroot Hu.
  rewrite serve_not_star by (now apply rooted_not_star).
  rewrite ServeMux_Handler_as_is by assumption.
  rewrite mux_handler_root by assumption. split; reflexivity.
Qed.

(** C3, as the code has it. A request that is matched on the path it came
    with, whose path lies below [/view/], [/edit/] or [/save/] and does not
    match the validator, is answered 404 whatever its method, and the file
    system is not touched. *)
Theorem invalid_wiki_path_404 (r : Request) (fs : FileSys) :
  served_as_is r ->
  under_wiki_prefix (URL_Path r) = true ->
  validPath_FindStringSubmatch (URL_Path r) = None ->
  serve templates r fs = ([Error "404 page not found" StatusNotFound], fs) /\
  StatusCode (fst (serve templates r fs)) = 404.
Proof.
  intros Has Hu Hm.
  assert (H : serve templates r fs = ([Error "404 page not found" StatusNotFound], fs)).
  { rewrite serve_not_star by (intros E; rewrite E in Hu; discriminate Hu).
    rewrite ServeMux_Handler_as_is
      by (try assumption; now apply subtree_root_not_under).
    unfold under_wiki_prefix in Hu.
    destruct (HasPrefix (URL_Path r) "/view/") eqn:Hv;
      [|destruct (HasPrefix (URL_Path r) "/edit/") eqn:He].
    - rewrite mux_handler_view by assumption.
      now rewrite makeHandler_invalid.
    - rewrite mux_handler_edit by assumption.
      now rewrite makeHandler_invalid.
    - rewrite mux_handler_save by exact Hu.
      now rewrite makeHandler_invalid. }
  rewrite H. auto.
Qed.

End Routing.

Lemma root_redirects_to_FrontPage_witness :
  serve sample_templates (GET "/") empty_fs
  = ([Redirect "/view/FrontPage" StatusFound], empty_fs) /\
  StatusCode (fst (serve sample_templates (GET "/") empty_fs)) = 302 /\
  Location (fst (serve sample_templates (GET "/") empty_fs)) = Some "/view/FrontPage".
Proof.
  apply (root_redirects_to_FrontPage sample_templates (GET "/") empty_fs).
  reflexivity.
Defined.

Lemma catch_all_root_witness :
  serve sample_templates (GET "/etc/passwd") empty_fs
  = rootHandler [] (GET "/etc/passwd") empty_fs /\
  serve sample_templates (GET "/etc/passwd") empty_fs
  = ([Redirect "/view/FrontPage" StatusFound], empty_fs).
Proof.
  apply (catch_all_root sample_templates (GET "/etc/passwd") empty_fs).
  - right. reflexivity.
  - reflexivity.
  - intros [E | [E | E]]; discriminate E.
  - reflexivity.
Defined.

(** C9 as stated fails: [/view] lies below none of the three prefixes, yet
    it is not dispatched to the root handler; the router answers it itself
    with a permanent redirect to [/view/]. A path that is not in canonical
    form, such as [//foo], is likewise answered by the router. *)
Lemma catch_all_root_counterexample :
  under_wiki_prefix "/view" = false /\
  serve sample_templates (GET "/view") empty_fs
  = ([Redirect "/view/" StatusMovedPermanently], empty_fs) /\
  serve sample_templates (GET "/view") empty_fs
  <> rootHandler [] (GET "/view") empty_fs /\
  under_wiki_prefix "//foo" = false /\
  serve sample_templates (GET "//foo") empty_fs
  = ([Redirect "/foo" StatusMovedPermanently], empty_fs).
Proof.
  repeat split; try reflexivity.
  vm_compute. discriminate.
Qed.

Lemma invalid_wiki_path_404_witness :
  serve sample_templates (POST "/save/no_such-title" [("body", "x")]) empty_fs
  = ([Error "404 page not found" StatusNotFound], empty_fs) /\
  StatusCode (fst (serve sample_templates
                     (POST "/save/no_such-title" [("body", "x")]) empty_fs)) = 404.
Proof.
  apply (invalid_wiki_path_404 sample_templates
           (POST "/save/no_such-title" [("body", "x")]) empty_fs).
  - right. reflexivity.
  - reflexivity.
  - reflexivity.
Defined.

(** C3 as stated fails: [/foo] does not match the validator and is not [/],
    yet the answer is the root handler's 302, not a 404; and a path below a
    wiki prefix that is not in canonical form, such as [/view//x], is
    answered with a permanent redirect. *)
Lemma unmatched_path_counterexample :
  validPath_FindStringSubmatch "/foo" = None /\
  "/foo" <> "/" /\
  StatusCode (fst (serve sample_templates (GET "/foo") empty_fs)) = 302 /\
  StatusCode (fst (serve sample_templates (GET "/foo") empty_fs)) <> 404 /\
  validPath_FindStringSubmatch "/view//x" = None /\
  StatusCode (fst (serve sample_templates (GET "/view//x") empty_fs)) = 301.
Proof.
  repeat split; try reflexivity; discriminate.
Qed.

(** ** The handlers *)

Section HandlerProperties.

Variable templates : Templates.

Lemma renderTemplate_cases (w : ResponseWriter) (tmpl : string) (p : Page) :
  renderTemplate templates w tmpl p =
  let (out, err) := templates (tmpl +:+ ".html") p in
  let w' := match out with EmptyString => w | _ => w ++ [Write out] end in
  match err with
  | Some e => w' ++ [Error e StatusInternalServerError]
  | None => w'
  end.
Proof.
  unfold renderTemplate, ExecuteTemplate, http_Error.
  destruct (templates (tmpl +:+ ".html") p) as [out [e|]]; reflexivity.
Qed.

(** Rendering never redirects. *)
Lemma renderTemplate_no_Location (tmpl : string) (p : Page) :
  Location (renderTemplate templates [] tmpl p) = None.
Proof.
  rewrite renderTemplate_cases.
  destruct (templates (tmpl +:+ ".html") p) as [[|c out] [e|]]; reflexivity.
Qed.

(** C4. For a validated title the save handler reads the form field [body],
    makes the page of the path's title and that body and saves it; a failed
    write is answered 500 with the text of the error, a successful one with a
    302 redirect to [/view/<title>], the file then holding the body. *)
Theorem save_handler_responses (r : Request) (title : string) (fs : FileSys) :
  alnum_plus title = true ->
  URL_Path r = "/save/" +:+ title ->
  let p := mkPage title (bytes_of_string (FormValue r "body")) in
  serve templates r fs = saveHandler [] r title fs /\
  match save p fs with
  | (Some e, fs') =>
      serve templates r fs
      = ([Error (PathError_Error e) StatusInternalServerError], fs') /\
      StatusCode (fst (serve templates r fs)) = 500 /\
      files fs' = files fs
  | (None, fs') =>
      serve templates r fs
      = ([Redirect ("/view/" +:+ title) StatusFound], fs') /\
      StatusCode (fst (serve templates r fs)) = 302 /\
      contents <$> files fs' !! page_filename title
      = Some (bytes_of_string (FormValue r "body"))
  end.
Proof.
  intros Ht Hp p. rewrite (serve_save templates r title Ht Hp).
  split; [reflexivity|].
  unfold saveHandler, bind. fold p.
  destruct (save p fs) as [[e|] fs'] eqn:E.
  - repeat split. rewrite save_eq in E. cbv zeta in E.
    destruct (fault fs (page_filename (Title p))); inversion E; reflexivity.
  - repeat split. now apply save_ok_inv in E as [_ E].
Qed.

(** C5. For a validated title the view handler answers a failed load with a
    302 redirect to [/edit/<title>], and a successful one by rendering the
    [view] template on the loaded page, without a redirect. *)
Theorem view_handler_responses (r : Request) (title : string) (fs : FileSys) :
  alnum_plus title = true ->
  URL_Path r = "/view/" +:+ title ->
  serve templates r fs = viewHandler templates [] r title fs /\
  match fst (loadPage title fs) with
  | Failed _ =>
      fst (serve templates r fs) = [Redirect ("/edit/" +:+ title) StatusFound] /\
      StatusCode (fst (serve templates r fs)) = 302
  | Ok p =>
      fst (serve templates r fs) = renderTemplate templates [] "view" p /\
      Title p = title /\
      Some (Body p) = contents <$> files fs !! page_filename title /\
      Location (fst (serve templates r fs)) = None
  end.
Proof.
  intros Ht Hp. rewrite (serve_view templates r title Ht Hp).
  split; [reflexivity|].
  unfold viewHandler, bind. rewrite loadPage_eq. cbv zeta. cbn [fst].
  destruct (fault fs (page_filename title)) as [e|]; [split; reflexivity|].
  destruct (files fs !! page_filename title) as [f|]; [|split; reflexivity].
  cbn [fst ret]. repeat split. apply renderTemplate_no_Location.
Qed.

(** C6. For a validated title the edit handler renders the [edit] template
    whether or not the page loads: on the loaded page, or on a page with the
    title and an empty body. A failed load is never answered with an error
    or a redirect of its own; when the template executes without error the
    answer is 200 with the template's output. *)
Theorem edit_handler_responses (r : Request) (title : string) (fs : FileSys) :
  alnum_plus title = true ->
  URL_Path r = "/edit/" +:+ title ->
  let p := match fst (loadPage title fs) with
           | Failed _ => mkPage title []
           | Ok p => p
           end in
  serve templates r fs = editHandler templates [] r title fs /\
  fst (serve templates r fs) = renderTemplate templates [] "edit" p /\
  Location (fst (serve templates r fs)) = None /\
  (snd (templates "edit.html" p) = None ->
   StatusCode (fst (serve templates r fs)) = 200 /\
   fst (serve templates r fs)
   = match fst (templates "edit.html" p) with
     | EmptyString => []
     | out => [Write out]
     end).
Proof.
  intros Ht Hp p. rewrite (serve_edit templates r title Ht Hp).
  split; [reflexivity|].
  assert (H : fst (editHandler templates [] r title fs)
              = renderTemplate templates [] "edit" p).
  { unfold editHandler, bind. subst p.
    destruct (loadPage title fs) as [[q|e] fs']; reflexivity. }
  rewrite H. split; [reflexivity|]. split; [apply renderTemplate_no_Location|].
  rewrite renderTemplate_cases.
  change ("edit" +:+ ".html") with "edit.html".
  destruct (templates "edit.html" p) as [[|c out] [e|]]; cbn [fst snd];
    intros E; try discriminate E; split; reflexivity.
Qed.

End HandlerProperties.

(** ** Which files are ever opened *)

Lemma page_ops_ret {A} (a : A) : page_ops_only (ret a).
Proof. intros fs. exists []. split; [reflexivity|constructor]. Qed.

Lemma page_ops_bind {A B} (c : IO A) (k : A -> IO B) :
  page_ops_only c -> (forall a, page_ops_only (k a)) -> page_ops_only (bind c k).
Proof.
  intros Hc Hk fs. unfold bind.
  destruct (Hc fs) as (ops1 & E1 & F1).
  destruct (c fs) as [a fs1]. cbn [snd] in E1.
  destruct (Hk a fs1) as (ops2 & E2 & F2).
  exists (ops2 ++ ops1). split.
  - rewrite E2, E1. now rewrite app_assoc.
  - apply Forall_app. auto.
Qed.

Lemma page_ops_loadPage (title : string) :
  alnum_plus title = true -> page_ops_only (loadPage title).
Proof.
  intros Ht fs. rewrite loadPage_eq. cbv zeta.
  exists [OpReadFile (page_filename title)]. split; [reflexivity|].
  repeat constructor. exists title. auto.
Qed.

Lemma page_ops_save (p : Page) :
  alnum_plus (Title p) = true -> page_ops_only (save p).
Proof.
  intros Ht fs. rewrite save_eq. cbv zeta.
  exists [OpWriteFile (page_filename (Title p)) (Body p) (octal 6 0 0)].
  split.
  - destruct (fault fs (page_filename (Title p))); reflexivity.
  - repeat constructor. exists (Title p). auto.
Qed.

Lemma page_ops_makeHandler fn (w : ResponseWriter) (r : Request) :
  (forall title, alnum_plus title = true -> page_ops_only (fn w r title)) ->
  page_ops_only (makeHandler fn w r).
Proof.
  intros Hfn. unfold makeHandler.
  destruct (validPath_FindStringSubmatch (URL_Path r)) as [l|] eqn:E;
    [|apply page_ops_ret].
  apply FindStringSubmatch_Some in E as (a & t & -> & _ & Ht & _).
  now apply Hfn.
Qed.

Section Safety.

Variable templates : Templates.

Lemma page_ops_viewHandler (w : ResponseWriter) (r : Request) (title : string) :
  alnum_plus title = true -> page_ops_only (viewHandler templates w r title).
Proof.
  intros Ht. apply page_ops_bind; [now apply page_ops_loadPage|].
  intros [p|e]; apply page_ops_ret.
Qed.

Lemma page_ops_editHandler (w : ResponseWriter) (r : Request) (title : string) :
  alnum_plus title = true -> page_ops_only (editHandler templates w r title).
Proof.
  intros Ht. apply page_ops_bind; [now apply page_ops_loadPage|].
  intros l. apply page_ops_ret.
Qed.

Lemma page_ops_saveHandler (w : ResponseWriter) (r : Request) (title : string) :
  alnum_plus title = true -> page_ops_only (saveHandler w r title).
Proof.
  intros Ht. apply page_ops_bind; [now apply page_ops_save|].
  intros [e|]; apply page_ops_ret.
Qed.

Lemma page_ops_mux_handler (path : string) (w : ResponseWriter) (r : Request) :
  page_ops_only (mux_handler (DefaultServeMux templates) path w r).
Proof.
  unfold mux_handler. rewrite mux_match_Default.
  destruct (HasPrefix path "/view/");
    [|destruct (HasPrefix path "/edit/");
      [|destruct (HasPrefix path "/save/"); [|destruct (HasPrefix path "/")]]];
    cbn [h view_entry edit_entry save_entry root_entry].
  - apply page_ops_makeHandler. intros. now apply page_ops_viewHandler.
  - apply page_ops_makeHandler. intros. now apply page_ops_editHandler.
  - apply page_ops_makeHandler. intros. now apply page_ops_saveHandler.
  - apply page_ops_ret.
  - apply page_ops_ret.
Qed.

(** C2. Whatever the request, a business handler wrapped by [makeHandler] is
    either not called (the answer is 404) or called with a title in
    [[a-zA-Z0-9]+] taken from a path [/<action>/<title>]; every file the
    server opens while serving a request is [data/<title>.txt] for such a
    title; and the traversal path [/view/../../etc/passwd] is rejected by the
    validator and leaves the file system untouched, whatever the method. *)
Theorem only_alnum_titles_reach_store :
  (forall fn (w : ResponseWriter) (r : Request),
     makeHandler fn w r = ret (http_NotFound w r) \/
     exists a title,
       In a validPath_actions /\ alnum_plus title = true /\
       URL_Path r = "/" +:+ a +:+ "/" +:+ title /\
       makeHandler fn w r = fn w r title) /\
  (forall r : Request, page_ops_only (serve templates r)) /\
  validPath_FindStringSubmatch "/view/../../etc/passwd" = None /\
  (forall (method : string) (query : Values) (form : RequestBody) (fs : FileSys),
     snd (serve templates
            (mkRequest method "/view/../../etc/passwd" query form) fs) = fs).
Proof.
  split; [|split; [|split]].
  - intros fn w r. unfold makeHandler.
    destruct (validPath_FindStringSubmatch (URL_Path r)) as [l|] eqn:E;
      [right|left; reflexivity].
    apply FindStringSubmatch_Some in E as (a & t & -> & Ha & Ht & Hp).
    exists a, t. auto.
  - intros r.
    unfold serve, serverHandler_ServeHTTP, globalOptionsHandler, ServeMux_ServeHTTP.
    destruct (RequestURI_is_star r);
      [destruct (String.eqb (Method r) "OPTIONS"); apply page_ops_ret|].
    cbn [andb]. unfold ServeMux_Handler.
    destruct (String.eqb (Method r) "CONNECT").
    + destruct (shouldRedirect _ _); [apply page_ops_ret|apply page_ops_mux_handler].
    + cbv zeta. destruct (shouldRedirect _ _); [apply page_ops_ret|].
      destruct (negb _); [apply page_ops_ret|apply page_ops_mux_handler].
  - reflexivity.
  - intros method query form fs.
    rewrite serve_not_star by discriminate.
    unfold ServeMux_Handler. cbn [Method URL_Path].
    destruct (String.eqb method "CONNECT"); reflexivity.
Qed.

End Safety.

(** ** What the Page Store does to the files *)

(** C7, as the code has it. [save] issues one write of the page's body to
    [data/<Title>.txt] with mode 0600; when the file can be opened its
    content becomes exactly the body, a file that was absent is created with
    mode 0600 and a file that was there keeps the mode it had, every other
    file is left alone; when it cannot be opened no file changes. [loadPage]
    issues one read of the same [data/<title>.txt]; it fails exactly when
    the file is absent or cannot be opened, and otherwise returns the title
    with the file's content. *)
Theorem page_store_files (p : Page) (fs : FileSys) :
  let name := "data/" +:+ Title p +:+ ".txt" in
  oplog (snd (save p fs)) = OpWriteFile name (Body p) (octal 6 0 0) :: oplog fs /\
  match fault fs name with
  | None =>
      fst (save p fs) = None /\
      files (snd (save p fs)) =
        <[name := mkFile (Body p)
                    match files fs !! name with
                    | Some f => perm f
                    | None => octal 6 0 0
                    end]> (files fs)
  | Some e =>
      fst (save p fs) = Some (mkPathError "open" name e) /\
      files (snd (save p fs)) = files fs
  end /\
  oplog (snd (loadPage (Title p) fs)) = OpReadFile name :: oplog fs /\
  files (snd (loadPage (Title p) fs)) = files fs /\
  fst (loadPage (Title p) fs) =
    match fault fs name, files fs !! name with
    | Some e, _ => Failed (mkPathError "open" name e)
    | None, None => Failed (mkPathError "open" name ENOENT)
    | None, Some f => Ok (mkPage (Title p) (contents f))
    end.
Proof.
  cbv zeta. rewrite save_eq, loadPage_eq. cbv zeta.
  change (page_filename (Title p)) with ("data/" +:+ Title p +:+ ".txt").
  destruct (fault fs ("data/" +:+ Title p +:+ ".txt")) as [e|];
    repeat split; reflexivity.
Qed.

(** C7 as stated fails for a file that is already there with another mode:
    the save succeeds, the body is replaced, and the mode stays 0644. *)
Lemma save_mode_counterexample :
  fst (save (mkPage "Test" (bytes_of_string "new")) checkout_fs) = None /\
  files (snd (save (mkPage "Test" (bytes_of_string "new")) checkout_fs))
    !! "data/Test.txt"
  = Some (mkFile (bytes_of_string "new") (octal 6 4 4)) /\
  octal 6 4 4 <> octal 6 0 0.
Proof.
  split; [reflexivity|]. split; [vm_compute; reflexivity|discriminate].
Qed.

(** A file the program creates does get mode 0600. *)
Example save_creates_0600 :
  files (snd (save (mkPage "Test" (bytes_of_string "new")) empty_fs))
    !! "data/Test.txt"
  = Some (mkFile (bytes_of_string "new") (octal 6 0 0)).
Proof. vm_compute. reflexivity. Qed.

(** ** The method of the request *)

Section Methods.

Variable templates : Templates.

(** C10. No handler looks at the method. Two requests for the same
    [/view/<title>] or [/edit/<title>] are served alike whatever their
    methods; two requests for the same [/save/<title>] with the same form
    value [body] are served alike; a request of any method for
    [/save/<title>] stores its form value [body] in the page's file when the
    file can be opened; and on a GET the form value [body] is the one of the
    URL query. *)
Theorem method_is_not_inspected (r r' : Request) (title : string) (fs : FileSys) :
  alnum_plus title = true ->
  URL_Path r' = URL_Path r ->
  (URL_Path r = "/view/" +:+ title \/ URL_Path r = "/edit/" +:+ title ->
   serve templates r' fs = serve templates r fs) /\
  (URL_Path r = "/save/" +:+ title ->
   (FormValue r' "body" = FormValue r "body" ->
    serve templates r' fs = serve templates r fs) /\
   (fault fs (page_filename title) = None ->
    contents <$> files (snd (serve templates r fs)) !! page_filename title
    = Some (bytes_of_string (FormValue r "body")))) /\
  (forall (path body : string) (query : Values) (form : RequestBody),
     FormValue (mkRequest "GET" path (("body", body) :: query) form) "body" = body).
Proof.
  intros Ht Hp. split; [|split].
  - intros [Hv|He].
    + rewrite (serve_view templates r title Ht Hv).
      rewrite (serve_view templates r' title Ht) by congruence. reflexivity.
    + rewrite (serve_edit templates r title Ht He).
      rewrite (serve_edit templates r' title Ht) by congruence. reflexivity.
  - intros Hs. split.
    + intros Hb. rewrite (serve_save templates r title Ht Hs).
      rewrite (serve_save templates r' title Ht) by congruence.
      unfold saveHandler. rewrite Hb. reflexivity.
    + intros Hf. rewrite (serve_save templates r title Ht Hs).
      unfold saveHandler, bind.
      destruct (save (mkPage title (bytes_of_string (FormValue r "body"))) fs)
        as [[e|] fs'] eqn:E.
      * rewrite save_eq in E. cbv zeta in E. cbn [Title] in E.
        rewrite Hf in E. discriminate E.
      * now apply save_ok_inv in E as [_ E].
  - reflexivity.
Qed.

End Methods.

(** ** The properties at work on concrete requests *)

Lemma save_handler_responses_witness :
  serve sample_templates (post_save_Test "hello") empty_fs
  = ([Redirect "/view/Test" StatusFound], hello_fs) /\
  fst (serve sample_templates (post_save_Test "hello") no_data_dir_fs)
  = [Error "open data/Test.txt: no such file or directory" StatusInternalServerError].
Proof.
  split.
  - pose proof (save_handler_responses sample_templates (post_save_Test "hello")
                  "Test" empty_fs eq_refl eq_refl) as H.
    cbv zeta in H. destruct H as [_ H]. hnf in H. destruct H as [H _]. exact H.
  - pose proof (save_handler_responses sample_templates (post_save_Test "hello")
                  "Test" no_data_dir_fs eq_refl eq_refl) as H.
    cbv zeta in H. destruct H as [_ H]. hnf in H. destruct H as [H _].
    rewrite H. reflexivity.
Defined.

Lemma view_handler_responses_witness :
  fst (serve sample_templates (GET "/view/NoSuchPage") empty_fs)
  = [Redirect "/edit/NoSuchPage" StatusFound] /\
  fst (serve sample_templates (GET "/view/Test") hello_fs)
  = [Write "<h1>Test</h1><div>hello</div>"].
Proof.
  split.
  - pose proof (view_handler_responses sample_templates (GET "/view/NoSuchPage")
                  "NoSuchPage" empty_fs eq_refl eq_refl) as H.
    destruct H as [_ H]. hnf in H. destruct H as [H _]. exact H.
  - pose proof (view_handler_responses sample_templates (GET "/view/Test")
                  "Test" hello_fs eq_refl eq_refl) as H.
    destruct H as [_ H]. hnf in H. destruct H as [H _].
    rewrite H. reflexivity.
Defined.

Lemma edit_handler_responses_witness :
  StatusCode (fst (serve sample_templates (GET "/edit/NoSuchPage") empty_fs)) = 200 /\
  fst (serve sample_templates (GET "/edit/NoSuchPage") empty_fs)
  = [Write "<h1>Editing NoSuchPage</h1><textarea name=body></textarea>"].
Proof.
  pose proof (edit_handler_responses sample_templates (GET "/edit/NoSuchPage")
                "NoSuchPage" empty_fs eq_refl eq_refl) as H.
  cbv zeta in H. destruct H as (_ & _ & _ & H).
  exact (H eq_refl).
Defined.

Lemma method_is_not_inspected_witness :
  serve sample_templates (mkRequest "DELETE" "/view/Test" [] NoForm) hello_fs
  = serve sample_templates (GET "/view/Test") hello_fs /\
  serve sample_templates (get_save_Test "hello") empty_fs
  = serve sample_templates (post_save_Test "hello") empty_fs /\
  contents <$>
    files (snd (serve sample_templates (get_save_Test "hello") empty_fs))
    !! page_filename "Test"
  = Some (bytes_of_string "hello").
Proof.
  split; [|split].
  - pose proof (method_is_not_inspected sample_templates (GET "/view/Test")
                  (mkRequest "DELETE" "/view/Test" [] NoForm) "Test" hello_fs
                  eq_refl eq_refl) as H.
    destruct H as (H & _ & _). exact (H (or_introl eq_refl)).
  - pose proof (method_is_not_inspected sample_templates (post_save_Test "hello")
                  (get_save_Test "hello") "Test" empty_fs eq_refl eq_refl) as H.
    destruct H as (_ & H & _). destruct (H eq_refl) as [H' _]. exact (H' eq_refl).
  - pose proof (method_is_not_inspected sample_templates (get_save_Test "hello")
                  (get_save_Test "hello") "Test" empty_fs eq_refl eq_refl) as H.
    destruct H as (_ & H & _). destruct (H eq_refl) as [_ H']. exact (H' eq_refl).
Defined.

(** The scenario of the specification: post [hello] to [/save/Test], view it,
    post [world], view it again. The second save replaces the first. *)
Example save_view_overwrite :
  fst (serve_all sample_templates
         [post_save_Test "hello"; GET "/view/Test";
          post_save_Test "world"; GET "/view/Test"] empty_fs)
  = [[Redirect "/view/Test" StatusFound];
     [Write "<h1>Test</h1><div>hello</div>"];
     [Redirect "/view/Test" StatusFound];
     [Write "<h1>Test</h1><div>world</div>"]].
Proof. vm_compute. reflexivity. Qed.

Example validPath_view : validPath_FindStringSubmatch "/view/FrontPage"
  = Some ["/view/FrontPage"; "view"; "FrontPage"].
Proof. reflexivity. Qed.

Example validPath_newline :
  validPath_FindStringSubmatch ("/view/ab" +:+ String "010" EmptyString) = None.
Proof. reflexivity. Qed.

Example validPath_empty_title : validPath_FindStringSubmatch "/edit/" = None.
Proof. reflexivity. Qed.

Example cleanPath_examples :
  map cleanPath ["/../a/b/../././/c"; "/a/b/"; "//"; ""; "foo"; "/view/../../etc/passwd"]
  = ["/a/c"; "/a/b/"; "/"; "/"; "/foo"; "/etc/passwd"].
Proof. reflexivity. Qed.

(** X10. A save through the server followed by a view of the same title
    renders the [view] template on the page just saved. *)
Lemma save_then_view (templates : Templates) (rs rv : Request) (title : string)
    (fs : FileSys) :
  alnum_plus title = true ->
  URL_Path rs = "/save/" +:+ title ->
  URL_Path rv = "/view/" +:+ title ->
  fault fs (page_filename title) = None ->
  fst (serve_all templates [rs; rv] fs)
  = [[Redirect ("/view/" +:+ title) StatusFound];
     renderTemplate templates [] "view"
       (mkPage title (bytes_of_string (FormValue rs "body")))].
Proof.
  intros Ht Hs Hv Hf. cbn [serve_all]. unfold bind at 1.
  rewrite (serve_save templates rs title Ht Hs).
  unfold saveHandler, bind at 1.
  destruct (save (mkPage title (bytes_of_string (FormValue rs "body"))) fs)
    as [[e|] fs1] eqn:E.
  { rewrite save_eq in E. cbv zeta in E. cbn [Title] in E.
    rewrite Hf in E. discriminate E. }
  apply save_ok_inv in E as [Hf1 Hc]. cbn [Title Body] in Hf1, Hc.
  unfold ret at 1. unfold bind.
  rewrite (serve_view templates rv title Ht Hv).
  unfold viewHandler, bind. rewrite loadPage_eq. cbv zeta. rewrite Hf1.
  destruct (files fs1 !! page_filename title) as [f|]; [|discriminate Hc].
  cbn in Hc. inversion Hc. reflexivity.
Qed.

(* ===================================================================== *)
(** * Further properties of the code *)
(* ===================================================================== *)

(** ** What each handler leaves behind *)

Section Outcomes.

Variable templates : Templates.

Lemma viewHandler_eq (r : Request) (title : string) (fs : FileSys) :
  viewHandler templates [] r title fs =
  (match fst (loadPage title fs) with
   | Failed _ => [Redirect ("/edit/" +:+ title) StatusFound]
   | Ok p => renderTemplate templates [] "view" p
   end, log_op (OpReadFile (page_filename title)) fs).
Proof.
  unfold viewHandler, bind. rewrite loadPage_eq. cbv zeta. cbn [fst].
  destruct (fault fs (page_filename title)); [reflexivity|].
  destruct (files fs !! page_filename title); reflexivity.
Qed.

Lemma editHandler_eq (r : Request) (title : string) (fs : FileSys) :
  editHandler templates [] r title fs =
  (renderTemplate templates [] "edit"
     match fst (loadPage title fs) with
     | Failed _ => mkPage title []
     | Ok p => p
     end, log_op (OpReadFile (page_filename title)) fs).
Proof.
  unfold editHandler, bind. rewrite loadPage_eq. cbv zeta. cbn [fst].
  destruct (fault fs (page_filename title)); [reflexivity|].
  destruct (files fs !! page_filename title); reflexivity.
Qed.

Lemma saveHandler_eq (r : Request) (title : string) (fs : FileSys) :
  saveHandler [] r title fs =
  let p := mkPage title (bytes_of_string (FormValue r "body")) in
  (match fst (save p fs) with
   | Some e => [Error (PathError_Error e) StatusInternalServerError]
   | None => [Redirect ("/view/" +:+ title) StatusFound]
   end, snd (save p fs)).
Proof.
  unfold saveHandler, bind. cbv zeta.
  destruct (save _ fs) as [[e|] fs']; reflexivity.
Qed.

Lemma renderTemplate_status (tmpl : string) (p : Page) :
  StatusCode (renderTemplate templates [] tmpl p) = 200 \/
  StatusCode (renderTemplate templates [] tmpl p) = 500.
Proof.
  rewrite renderTemplate_cases.
  destruct (templates (tmpl +:+ ".html") p) as [[|c out] [e|]]; cbn; auto.
Qed.

Lemma valid_path_action (a t pre : string) :
  In a validPath_actions ->
  HasPrefix ("/" +:+ a +:+ "/" +:+ t) ("/" +:+ pre +:+ "/") = true ->
  In pre validPath_actions -> a = pre.
Proof.
  intros Ha H Hp. simpl in Ha, Hp.
  destruct Ha as [<-|[<-|[<-|[]]]]; destruct Hp as [<-|[<-|[<-|[]]]];
    first [reflexivity | discriminate H].
Qed.

Lemma makeHandler_cases fn (r : Request) (fs : FileSys) :
  makeHandler fn [] r fs = ([Error "404 page not found" StatusNotFound], fs) \/
  exists a title,
    In a validPath_actions /\ alnum_plus title = true /\
    URL_Path r = "/" +:+ a +:+ "/" +:+ title /\
    makeHandler fn [] r fs = fn [] r title fs.
Proof.
  unfold makeHandler.
  destruct (validPath_FindStringSubmatch (URL_Path r)) as [l|] eqn:E;
    [right|left; reflexivity].
  apply FindStringSubmatch_Some in E as (a & t & -> & Ha & Ht & Hp).
  exists a, t. auto.
Qed.

Lemma mux_handler_cases (r : Request) (fs : FileSys) :
  serve templates r fs
  = mux_handler (DefaultServeMux templates) (URL_Path r) [] r fs ->
  Served templates r fs.
Proof.
  intros Hs. unfold mux_handler in Hs. rewrite mux_match_Default in Hs.
  destruct (HasPrefix (URL_Path r) "/view/") eqn:Hv;
    [|destruct (HasPrefix (URL_Path r) "/edit/") eqn:He;
      [|destruct (HasPrefix (URL_Path r) "/save/") eqn:Hsv;
        [|destruct (HasPrefix (URL_Path r) "/") eqn:Hr]]];
    cbn [h view_entry edit_entry save_entry root_entry] in Hs.
  - destruct (makeHandler_cases (viewHandler templates) r fs)
      as [E|(a & t & Ha & Ht & Hp & E)]; rewrite E in Hs.
    + now apply ByNotFound.
    + rewrite Hp in Hv.
      apply (valid_path_action a t "view") in Hv; [subst a|assumption|simpl; auto].
      now apply (ByView _ _ _ t).
  - destruct (makeHandler_cases (editHandler templates) r fs)
      as [E|(a & t & Ha & Ht & Hp & E)]; rewrite E in Hs.
    + now apply ByNotFound.
    + rewrite Hp in He.
      apply (valid_path_action a t "edit") in He; [subst a|assumption|simpl; auto].
      now apply (ByEdit _ _ _ t).
  - destruct (makeHandler_cases saveHandler r fs)
      as [E|(a & t & Ha & Ht & Hp & E)]; rewrite E in Hs.
    + now apply ByNotFound.
    + rewrite Hp in Hsv.
      apply (valid_path_action a t "save") in Hsv; [subst a|assumption|simpl; auto].
      now apply (BySave _ _ _ t).
  - now apply ByRoot.
  - now apply ByNotFound.
Qed.

(** Every request is answered in one of these ways. *)
Lemma serve_cases (r : Request) (fs : FileSys) : Served templates r fs.
Proof.
  destruct (String.eqb (URL_Path r) "*") eqn:Estar.
  { apply String.eqb_eq in Estar.
    assert (Hd : serve templates r fs
                 = if String.eqb (Method r) "OPTIONS"
                   then ([], fs) else ([WriteHeader StatusBadRequest], fs)).
    { unfold serve, serverHandler_ServeHTTP, ServeMux_ServeHTTP,
        RequestURI_is_star, globalOptionsHandler.
      rewrite Estar. cbn [String.eqb Ascii.eqb Bool.eqb andb].
      destruct (String.eqb (Method r) "OPTIONS"); reflexivity. }
    destruct (String.eqb (Method r) "OPTIONS");
      [now apply ByOptions|now apply ByBadRequest]. }
  apply String.eqb_neq in Estar.
  assert (Hd : serve templates r fs
               = ServeMux_Handler (DefaultServeMux templates) r [] r fs)
    by (now rewrite serve_not_star).
  unfold ServeMux_Handler in Hd.
  destruct (String.eqb (Method r) "CONNECT").
  - destruct (shouldRedirect _ _).
    + now apply (ByRouter _ _ _ (URL_Path r +:+ "/")).
    + now apply mux_handler_cases.
  - cbv zeta in Hd. destruct (shouldRedirect _ _).
    + now apply (ByRouter _ _ _ (cleanPath (URL_Path r) +:+ "/")).
    + destruct (negb _).
      * now apply (ByRouter _ _ _ (cleanPath (URL_Path r))).
      * now apply mux_handler_cases.
Qed.

End Outcomes.

(** ** The validator *)

(** X1. [validPath.FindStringSubmatch] returns a match exactly for the paths
    [/<action>/<title>] with the action one of [edit], [save], [view] and
    the title in [[a-zA-Z0-9]+]; the match then has exactly the three
    entries path, action, title, so [m[2]] in [makeHandler] is always in
    range and is the title. *)
Theorem validPath_match_iff (path : string) (l : list string) :
  validPath_FindStringSubmatch path = Some l <->
  exists a title,
    In a validPath_actions /\ alnum_plus title = true /\
    path = "/" +:+ a +:+ "/" +:+ title /\ l = [path; a; title] /\
    length l = 3%nat /\ nth 2 l "" = title.
Proof.
  split.
  - intros H. apply FindStringSubmatch_Some in H as (a & t & -> & Ha & Ht & Hp).
    exists a, t. repeat split; assumption.
  - intros (a & t & Ha & Ht & -> & -> & _).
    now apply FindStringSubmatch_complete.
Qed.

(** ** The Page Store *)

Lemma page_filename_inj (t1 t2 : string) :
  page_filename t1 = page_filename t2 -> t1 = t2.
Proof.
  unfold page_filename. intros H.
  apply String.app_inj in H. now apply append_inj_r in H.
Qed.

(** X2. Saving a page leaves every other page as it was: a load of a
    different title gives the same result after the save as before it. *)
Theorem save_leaves_other_pages (p : Page) (title : string) (fs : FileSys) :
  title <> Title p ->
  fst (loadPage title (snd (save p fs))) = fst (loadPage title fs).
Proof.
  intros Hne.
  assert (Hn : page_filename (Title p) <> page_filename title)
    by (intros E; apply Hne; symmetry; now apply page_filename_inj).
  rewrite !loadPage_eq, save_eq. cbv zeta. cbn [fst].
  destruct (fault fs (page_filename (Title p))); cbn [snd fault files log_op];
    [reflexivity|].
  now rewrite lookup_insert_ne.
Qed.

(** X3. Of two saves under one title only the second one shows: the files
    are those the second save alone would have left. *)
Theorem save_twice_is_last (title : string) (b1 b2 : bytes) (fs : FileSys) :
  files (snd (save (mkPage title b2) (snd (save (mkPage title b1) fs))))
  = files (snd (save (mkPage title b2) fs)).
Proof.
  rewrite !save_eq. cbv zeta. cbn [Title Body].
  destruct (fault fs (page_filename title)) as [e|] eqn:Hf;
    cbn [snd fault files log_op]; rewrite Hf; cbn [snd files]; [reflexivity|].
  rewrite lookup_insert_eq. cbn [perm]. now rewrite insert_insert_eq.
Qed.

Section Extras.

Variable templates : Templates.

(** ** What a request can and cannot do *)

(** X4. A request changes a file only if it is a save: whenever the path does
    not lie below [/save/], the files after the request are the files before
    it. *)
Theorem only_save_changes_files (r : Request) (fs : FileSys) :
  HasPrefix (URL_Path r) "/save/" = false ->
  files (snd (serve templates r fs)) = files fs.
Proof.
  intros Hs.
  destruct (serve_cases templates r fs)
    as [Hst E|Hst E|url E|E|E|t Ht Hp E|t Ht Hp E|t Ht Hp E]; rewrite E.
  - reflexivity.
  - reflexivity.
  - reflexivity.
  - reflexivity.
  - reflexivity.
  - now rewrite viewHandler_eq.
  - now rewrite editHandler_eq.
  - rewrite Hp, HasPrefix_app in Hs. discriminate Hs.
Qed.

(** X5. A request answered 404 did nothing else: the file system is left as
    it was, without a single call into it. *)
Theorem not_found_touches_nothing (r : Request) (fs : FileSys) :
  StatusCode (fst (serve templates r fs)) = 404 ->
  snd (serve templates r fs) = fs.
Proof.
  destruct (serve_cases templates r fs)
    as [Hst E|Hst E|url E|E|E|t Ht Hp E|t Ht Hp E|t Ht Hp E]; rewrite E; cbn [fst snd].
  - reflexivity.
  - reflexivity.
  - discriminate.
  - reflexivity.
  - discriminate.
  - rewrite viewHandler_eq. cbn [fst].
    destruct (fst (loadPage t fs)) as [p|e]; [|discriminate].
    destruct (renderTemplate_status templates "view" p) as [-> | ->]; discriminate.
  - rewrite editHandler_eq. cbn [fst].
    match goal with |- context [renderTemplate _ _ _ ?p] =>
      destruct (renderTemplate_status templates "edit" p) as [-> | ->] end;
      discriminate.
  - rewrite saveHandler_eq. cbv zeta. cbn [fst].
    destruct (fst (save _ fs)); discriminate.
Qed.

(** X6. The server's handler answers every request with one of six status
    codes only: 200, 301, 302, 400, 404 or 500 (the 400 is the router's
    answer to the request target [*]). *)
Theorem status_codes (r : Request) (fs : FileSys) :
  In (StatusCode (fst (serve templates r fs))) [200; 301; 302; 400; 404; 500].
Proof.
  destruct (serve_cases templates r fs)
    as [Hst E|Hst E|url E|E|E|t Ht Hp E|t Ht Hp E|t Ht Hp E]; rewrite E; cbn [fst].
  - cbn. auto.
  - cbn. auto 6.
  - cbn. auto.
  - cbn. auto 6.
  - cbn. auto.
  - rewrite viewHandler_eq. cbn [fst].
    destruct (fst (loadPage t fs)) as [p|e]; [|cbn; auto].
    destruct (renderTemplate_status templates "view" p) as [-> | ->]; cbn; auto 7.
  - rewrite editHandler_eq. cbn [fst].
    match goal with |- context [renderTemplate _ _ _ ?p] =>
      destruct (renderTemplate_status templates "edit" p) as [-> | ->] end;
      cbn; auto 7.
  - rewrite saveHandler_eq. cbv zeta. cbn [fst].
    destruct (fst (save _ fs)); cbn; auto 7.
Qed.

(** X7. A 302 of the server never leads to a 404: whenever the answer is a
    302, its [Location] is a path the validator accepts. *)
Theorem found_redirects_are_valid (r : Request) (fs : FileSys) :
  StatusCode (fst (serve templates r fs)) = 302 ->
  exists url a title,
    Location (fst (serve templates r fs)) = Some url /\
    validPath_FindStringSubmatch url = Some [url; a; title].
Proof.
  destruct (serve_cases templates r fs)
    as [Hst E|Hst E|url E|E|E|t Ht Hp E|t Ht Hp E|t Ht Hp E]; rewrite E; cbn [fst].
  - discriminate.
  - discriminate.
  - discriminate.
  - discriminate.
  - intros _. exists "/view/FrontPage", "view", "FrontPage". split; reflexivity.
  - rewrite viewHandler_eq. cbn [fst].
    destruct (fst (loadPage t fs)) as [p|e].
    + destruct (renderTemplate_status templates "view" p) as [-> | ->]; discriminate.
    + intros _. exists ("/edit/" +:+ t), "edit", t. split; [reflexivity|].
      apply (FindStringSubmatch_complete "edit" t); [simpl; auto|assumption].
  - rewrite editHandler_eq. cbn [fst].
    match goal with |- context [renderTemplate _ _ _ ?p] =>
      destruct (renderTemplate_status templates "edit" p) as [-> | ->] end;
      discriminate.
  - rewrite saveHandler_eq. cbv zeta. cbn [fst].
    destruct (fst (save _ fs)); [discriminate|].
    intros _. exists ("/view/" +:+ t), "view", t. split; [reflexivity|].
    apply (FindStringSubmatch_complete "view" t); [simpl; auto|assumption].
Qed.


Lemma serve_keeps_owner_only (r : Request) (fs : FileSys) :
  owner_only_store fs -> owner_only_store (snd (serve templates r fs)).
Proof.
  intros Hinv.
  destruct (serve_cases templates r fs)
    as [Hst E|Hst E|url E|E|E|t Ht Hp E|t Ht Hp E|t Ht Hp E]; rewrite E; try exact Hinv.
  - rewrite viewHandler_eq. exact Hinv.
  - rewrite editHandler_eq. exact Hinv.
  - rewrite saveHandler_eq. cbv zeta. cbn [snd]. rewrite save_eq. cbv zeta.
    cbn [Title Body].
    destruct (fault fs (page_filename t)); [exact Hinv|].
    intros name f. cbn [snd files]. rewrite lookup_insert.
    destruct (decide (page_filename t = name)) as [<-|Hne].
    + intros Hf. inversion Hf; subst f; clear Hf. cbn [perm]. split.
      * destruct (files fs !! page_filename t) as [g|] eqn:Hg; [|reflexivity].
        now destruct (Hinv _ _ Hg).
      * exists t. auto.
    + apply Hinv.
Qed.

(** X9. The program keeps its store in shape: if every file is the file of a
    page with a title in [[a-zA-Z0-9]+] and has mode 0600, as in a store
    that starts empty, then this still holds after any sequence of
    requests. *)
Theorem store_stays_owner_only (rs : list Request) (fs : FileSys) :
  owner_only_store fs ->
  owner_only_store (snd (serve_all templates rs fs)).
Proof.
  revert fs. induction rs as [|r rs IH]; intros fs Hinv; [exact Hinv|].
  cbn [serve_all]. unfold bind at 1.
  pose proof (serve_keeps_owner_only r fs Hinv) as H1.
  destruct (serve templates r fs) as [w fs1]. cbn [snd] in H1.
  unfold bind. specialize (IH fs1 H1).
  destruct (serve_all templates rs fs1) as [ws fs2]. exact IH.
Qed.

End Extras.

(** ** Handlers one after the other, and their edge cases *)

Lemma Values_Get_absent (key : string) (vs : Values) :
  (forall v, ~ In (key, v) vs) -> Values_Get key vs = "".
Proof.
  induction vs as [|[k v] vs IH]; intros H; [reflexivity|].
  cbn [Values_Get]. destruct (String.eqb k key) eqn:E.
  - apply String.eqb_eq in E. subst k. exfalso. apply (H v). now left.
  - apply IH. intros v' Hin. apply (H v'). now right.
Qed.

Section Flows.

Variable templates : Templates.

(** X11. A save through the server followed by an edit of the same title
    renders the [edit] template on the page just saved: the form comes back
    filled with the saved body. *)
Theorem save_then_edit (rs re : Request) (title : string) (fs : FileSys) :
  alnum_plus title = true ->
  URL_Path rs = "/save/" +:+ title ->
  URL_Path re = "/edit/" +:+ title ->
  fault fs (page_filename title) = None ->
  fst (serve_all templates [rs; re] fs)
  = [[Redirect ("/view/" +:+ title) StatusFound];
     renderTemplate templates [] "edit"
       (mkPage title (bytes_of_string (FormValue rs "body")))].
Proof.
  intros Ht Hs He Hf. cbn [serve_all]. unfold bind at 1.
  rewrite (serve_save templates rs title Ht Hs), saveHandler_eq. cbv zeta.
  destruct (save (mkPage title (bytes_of_string (FormValue rs "body"))) fs)
    as [[e|] fs1] eqn:E.
  { rewrite save_eq in E. cbv zeta in E. cbn [Title] in E.
    rewrite Hf in E. discriminate E. }
  apply save_ok_inv in E as [Hf1 Hc]. cbn [Title Body] in Hf1, Hc.
  cbn [fst snd]. unfold bind.
  rewrite (serve_edit templates re title Ht He), editHandler_eq.
  rewrite loadPage_eq. cbv zeta. cbn [fst]. rewrite Hf1.
  destruct (files fs1 !! page_filename title) as [f|]; [|discriminate Hc].
  cbn in Hc. inversion Hc. reflexivity.
Qed.

(** X12. A save request without a form value [body] is not refused: it
    stores the empty body, so the page's file is left empty. *)
Theorem save_without_body_empties_page (r : Request) (title : string)
    (fs : FileSys) :
  alnum_plus title = true ->
  URL_Path r = "/save/" +:+ title ->
  no_form_value r "body" ->
  fault fs (page_filename title) = None ->
  fst (serve templates r fs) = [Redirect ("/view/" +:+ title) StatusFound] /\
  contents <$> files (snd (serve templates r fs)) !! page_filename title
  = Some [].
Proof.
  intros Ht Hp Hn Hf.
  rewrite (serve_save templates r title Ht Hp), saveHandler_eq. cbv zeta.
  unfold FormValue. rewrite (Values_Get_absent "body" (Form r) Hn).
  change (bytes_of_string "") with (@nil Byte.byte).
  rewrite save_eq. cbv zeta. cbn [Title Body]. rewrite Hf. cbn [fst snd files].
  split; [reflexivity|]. now rewrite lookup_insert_eq.
Qed.


End Flows.

(** ** The further properties at work on concrete requests *)

Lemma validPath_match_iff_witness :
  validPath_FindStringSubmatch "/edit/Page1" = Some ["/edit/Page1"; "edit"; "Page1"].
Proof.
  apply (proj2 (validPath_match_iff "/edit/Page1" ["/edit/Page1"; "edit"; "Page1"])).
  exists "edit", "Page1". repeat split; simpl; auto.
Defined.

Lemma save_leaves_other_pages_witness :
  fst (loadPage "Test" (snd (save (mkPage "Other" (bytes_of_string "x")) hello_fs)))
  = fst (loadPage "Test" hello_fs).
Proof.
  apply (save_leaves_other_pages (mkPage "Other" (bytes_of_string "x")) "Test" hello_fs).
  discriminate.
Defined.

Lemma only_save_changes_files_witness :
  files (snd (serve sample_templates (POST "/view/Test" [("body", "x")]) hello_fs))
  = files hello_fs.
Proof.
  apply (only_save_changes_files sample_templates
           (POST "/view/Test" [("body", "x")]) hello_fs).
  reflexivity.
Defined.

Lemma not_found_touches_nothing_witness :
  snd (serve sample_templates (GET "/save/a.b") hello_fs) = hello_fs.
Proof.
  apply (not_found_touches_nothing sample_templates (GET "/save/a.b") hello_fs).
  reflexivity.
Defined.

Lemma found_redirects_are_valid_witness :
  exists url a title,
    Location (fst (serve sample_templates (GET "/view/NoSuchPage") empty_fs))
    = Some url /\
    validPath_FindStringSubmatch url = Some [url; a; title].
Proof.
  apply (found_redirects_are_valid sample_templates (GET "/view/NoSuchPage") empty_fs).
  reflexivity.
Defined.

Lemma store_stays_owner_only_witness :
  owner_only_store
    (snd (serve_all sample_templates
            [post_save_Test "hello"; GET "/view/Test"; get_save_Test "world"]
            empty_fs)).
Proof.
  apply (store_stays_owner_only sample_templates
           [post_save_Test "hello"; GET "/view/Test"; get_save_Test "world"]
           empty_fs).
  intros name f H. cbn in H. rewrite lookup_empty in H. discriminate H.
Defined.

Lemma save_then_view_witness :
  fst (serve_all sample_templates [post_save_Test "hello"; GET "/view/Test"] empty_fs)
  = [[Redirect ("/view/" +:+ "Test") StatusFound];
     renderTemplate sample_templates [] "view"
       (mkPage "Test" (bytes_of_string (FormValue (post_save_Test "hello") "body")))].
Proof.
  apply (save_then_view sample_templates (post_save_Test "hello") (GET "/view/Test")
           "Test" empty_fs); reflexivity.
Defined.

Lemma save_then_edit_witness :
  fst (serve_all sample_templates [post_save_Test "hello"; GET "/edit/Test"] empty_fs)
  = [[Redirect ("/view/" +:+ "Test") StatusFound];
     renderTemplate sample_templates [] "edit"
       (mkPage "Test" (bytes_of_string (FormValue (post_save_Test "hello") "body")))].
Proof.
  apply (save_then_edit sample_templates (post_save_Test "hello") (GET "/edit/Test")
           "Test" empty_fs); reflexivity.
Defined.

Lemma save_without_body_empties_page_witness :
  fst (serve sample_templates (GET "/save/Test") hello_fs)
  = [Redirect ("/view/" +:+ "Test") StatusFound] /\
  contents <$> files (snd (serve sample_templates (GET "/save/Test") hello_fs))
    !! page_filename "Test"
  = Some [].
Proof.
  apply (save_without_body_empties_page sample_templates (GET "/save/Test")
           "Test" hello_fs); try reflexivity.
  intros v H. exact H.
Defined.


Lemma FindStringSubmatch_regexp_witness :
  re_match validPath "/save/Test" /\
  validPath_FindStringSubmatch "/save/Test" = Some ["/save/Test"; "save"; "Test"].
Proof.
  destruct (FindStringSubmatch_regexp "/save/Test") as [Hwhole Hgroups].
  split.
  - apply (proj2 Hwhole). exists ["/save/Test"; "save"; "Test"]. reflexivity.
  - apply (proj2 (Hgroups ["/save/Test"; "save"; "Test"])).
    exists "save", "Test". repeat split.
    + apply MAltR, MAltL. constructor.
    + change "Test" with (String "T" "" +:+ (String "e" "" +:+ (String "s" "" +:+ "t"))).
      repeat (apply MPlusMore; [now constructor|]).
      apply MPlusOne. now constructor.
Defined.

(** The request target [*]: the router answers it 400, and the server
    answers it itself when the method is OPTIONS. *)
Example star_target :
  serve sample_templates (GET "*") hello_fs
  = ([WriteHeader StatusBadRequest], hello_fs) /\
  StatusCode (fst (serve sample_templates (GET "*") hello_fs)) = 400 /\
  serve sample_templates (mkRequest "OPTIONS" "*" [] NoForm) hello_fs
  = ([], hello_fs).
Proof. repeat split. Qed.

(** The order of the values [r.FormValue] chooses from: a url-encoded body
    before the URL query, a multipart body after it, and a url-encoded body
    only for POST, PUT and PATCH. *)
Example FormValue_order :
  FormValue (mkRequest "POST" "/save/Test" [("body", "query")]
               (UrlEncoded [("body", "form")])) "body" = "form" /\
  FormValue (mkRequest "GET" "/save/Test" [("body", "query")]
               (UrlEncoded [("body", "form")])) "body" = "query" /\
  FormValue (mkRequest "POST" "/save/Test" [("body", "query")]
               (Multipart [("body", "part")])) "body" = "query" /\
  FormValue (mkRequest "GET" "/save/Test" []
               (Multipart [("body", "part")])) "body" = "part" /\
  FormValue (mkRequest "GET" "/save/Test" [] NoForm) "body" = "".
Proof. repeat split. Qed.
